(** * PropGrid service worker (sw.js): offline cache manager

    A shallow embedding of the service worker of the PropGrid landing page.
    The worker's event listeners and async helper functions are written as
    computations in a small state-and-exception monad [Promise] over a
    [World] made of the browser's cache storage and a trace of the
    platform calls the worker performed.  The browser APIs the worker calls
    ([fetch], [caches.open], [caches.match], [cache.put], [cache.addAll],
    ...) are modelled next to it, following the Fetch and Service Worker
    standards as far as the worker depends on them. *)

From Stdlib Require Import Ascii String.
From stdpp Require Import base decidable option strings list.

#[local] Set Warnings "-register-all,-clear-no-such-hyp".

Open Scope string_scope.
Open Scope list_scope.

(** ** Strings and URLs *)

(** [String.prototype.includes]: [sub] occurs somewhere in [s]. *)
Fixpoint includes (s sub : string) : bool :=
  String.prefix sub s ||
  match s with
  | EmptyString => false
  | String _ s' => includes s' sub
  end.

(** Splits a string at the first of the characters that end the authority
    part of a URL. *)
Fixpoint span_authority (s : string) : string * string :=
  match s with
  | EmptyString => (EmptyString, EmptyString)
  | String c s' =>
      if (Ascii.eqb c "/" || Ascii.eqb c "?" || Ascii.eqb c "#")%char
      then (EmptyString, s)
      else let (h, r) := span_authority s' in (String c h, r)
  end.

Fixpoint drop_string (n : nat) (s : string) : string :=
  match n, s with
  | S n', String _ s' => drop_string n' s'
  | _, _ => s
  end.

(** The scheme of an absolute http(s) URL, with its [://]. *)
Definition scheme_of (href : string) : option string :=
  if String.prefix "https://" href then Some "https://"
  else if String.prefix "http://" href then Some "http://"
  else None.

(** The URL's scheme is http or https. *)
Definition isHTTP (href : string) : bool :=
  match scheme_of href with
  | Some _ => true
  | None => false
  end.

(** The host and port of an authority: what follows its last [@]. *)
Fixpoint hostport (authority : string) : string :=
  match authority with
  | EmptyString => EmptyString
  | String _ rest => if includes authority "@" then hostport rest else authority
  end.

(** [new URL(href).origin] for an absolute URL, as [request.url] is;
    [null] unless the scheme is http or https. *)
Definition URL_origin (href : string) : string :=
  match scheme_of href with
  | Some sch =>
      sch +:+ hostport (fst (span_authority (drop_string (String.length sch) href)))
  | None => "null"
  end.

(** The URL without its fragment, as the cache compares URLs. *)
Fixpoint stripFragment (href : string) : string :=
  match href with
  | EmptyString => EmptyString
  | String c rest =>
      if Ascii.eqb c "#" then EmptyString else String c (stripFragment rest)
  end.

(** ** Headers *)

Definition lower_ascii (c : ascii) : ascii :=
  let n := nat_of_ascii c in
  if Nat.leb 65 n && Nat.leb n 90 then ascii_of_nat (n + 32) else c.

Fixpoint lower (s : string) : string :=
  match s with
  | EmptyString => EmptyString
  | String c rest => String (lower_ascii c) (lower rest)
  end.

(** The values of the headers named [name], whatever the case of the name. *)
Fixpoint header_values (name : string) (hs : list (string * string)) : list string :=
  match hs with
  | [] => []
  | (k, v) :: hs' =>
      if String.eqb (lower k) (lower name) then v :: header_values name hs'
      else header_values name hs'
  end.

Fixpoint join_values (v : string) (vs : list string) : string :=
  match vs with
  | [] => v
  | v' :: vs' => v +:+ ", " +:+ join_values v' vs'
  end.

(** [headers.get(name)]: the values of the header, combined; [None] when
    there is no such header. *)
Definition Headers_get (name : string) (hs : list (string * string)) : option string :=
  match header_values name hs with
  | [] => None
  | v :: vs => Some (join_values v vs)
  end.

Definition isHTTPWhitespace (c : ascii) : bool :=
  let n := nat_of_ascii c in
  Nat.eqb n 9 || Nat.eqb n 10 || Nat.eqb n 13 || Nat.eqb n 32.

Fixpoint trim_left (s : string) : string :=
  match s with
  | EmptyString => EmptyString
  | String c rest => if isHTTPWhitespace c then trim_left rest else s
  end.

Definition trim (s : string) : string :=
  String.rev (trim_left (String.rev (trim_left s))).

Fixpoint split_commas (s : string) : list string :=
  match s with
  | EmptyString => [EmptyString]
  | String c rest =>
      if Ascii.eqb c "," then EmptyString :: split_commas rest
      else match split_commas rest with
           | [] => [String c EmptyString]
           | f :: fs => String c f :: fs
           end
  end.

(** ** Requests and responses *)

Module Request.

Record t := mk {
  method : string;
  url : string;
  headers : list (string * string);
  body : string
}.

End Request.

Module Response.

Record t := mk {
  status : nat;
  statusText : string;
  headers : list (string * string);
  body : string
}.

(** [response.ok]: the status is in the range 200-299. *)
Definition ok (r : t) : bool :=
  Nat.leb 200 (status r) && Nat.leb (status r) 299.

(** [response.headers.get(name)]. *)
Definition header (name : string) (hs : list (string * string)) : option string :=
  Headers_get name hs.

(** The headers of a response made from a string body: a content type is
    added when the headers given have none. *)
Definition withContentType (hs : list (string * string)) : list (string * string) :=
  match header "Content-Type" hs with
  | Some _ => hs
  | None => hs ++ [("content-type", "text/plain;charset=UTF-8")]
  end.

(** [new Response(body, { headers })]. *)
Definition create (b : string) (hs : list (string * string)) : t :=
  mk 200 "" (withContentType hs) b.

(** [new Response(body, { status, statusText })]. *)
Definition create_status (b : string) (st : nat) (txt : string) : t :=
  mk st txt (withContentType []) b.

(** The field values of the response's [Vary] header. *)
Definition varyFields (r : t) : list string :=
  match header "Vary" (headers r) with
  | Some v => map trim (split_commas v)
  | None => []
  end.

(** The response varies on everything: [Vary: *]. *)
Definition varyStar (r : t) : bool :=
  existsb (fun f => String.eqb f "*") (varyFields r).

End Response.

(** A GET request for an absolute URL, without headers:
    [new Request(href)]. *)
Definition GET (href : string) : Request.t := Request.mk "GET" href [] "".

(** JSON values, as [response.json()] returns and [JSON.stringify] takes. *)
Inductive JSValue :=
| JNull
| JBool (b : bool)
| JNumber (z : Z)
| JString (s : string)
| JArray (l : list JSValue)
| JObject (fields : list (string * JSValue)).

(** JavaScript truthiness, as [if (formData)] tests it. *)
Definition truthy (v : JSValue) : bool :=
  match v with
  | JNull => false
  | JBool b => b
  | JNumber z => negb (Z.eqb z 0)
  | JString s => negb (String.eqb s "")
  | JArray _ | JObject _ => true
  end.

(** ** Caches

    A cache is the list of its request/response pairs, oldest first. *)

Abbreviation Cache := (list (Request.t * Response.t)).

(** The standard's "request matches cached item", with no options set: the
    URLs are equal up to their fragments, and for every field of the cached
    response's [Vary] header the cached request and [query] carry the same
    value. *)
Definition matchesCached (query : Request.t) (item : Request.t * Response.t) : bool :=
  String.eqb (Request.method item.1) "GET"
  && String.eqb (stripFragment (Request.url query)) (stripFragment (Request.url item.1))
  && forallb (fun f =>
                negb (String.eqb f "*")
                && bool_decide (Headers_get f (Request.headers item.1)
                                = Headers_get f (Request.headers query)))
             (Response.varyFields item.2).

(** The response of the first cached item that [query] matches. *)
Fixpoint Cache_find (query : Request.t) (c : Cache) : option Response.t :=
  match c with
  | [] => None
  | item :: c' =>
      if matchesCached query item then Some item.2 else Cache_find query c'
  end.

(** [cache.match(query)] on the items of a cache: only a GET request
    matches anything. *)
Definition Cache_match (query : Request.t) (c : Cache) : option Response.t :=
  if String.eqb (Request.method query) "GET" then Cache_find query c else None.

(** What [cache.put] requires of its request and response; it rejects
    otherwise. *)
Definition putAccepts (request : Request.t) (response : Response.t) : bool :=
  isHTTP (Request.url request)
  && String.eqb (Request.method request) "GET"
  && negb (Nat.eqb (Response.status response) 206)
  && negb (Response.varyStar response).

(** The items of a cache after a put: the items the request matches go,
    the new pair comes last. *)
Definition Cache_put (request : Request.t) (response : Response.t) (c : Cache) : Cache :=
  List.filter (fun item => negb (matchesCached request item)) c
  ++ [(request, response)].

(** The items of a cache after [cache.delete(request)]. *)
Definition Cache_delete (request : Request.t) (c : Cache) : Cache :=
  List.filter (fun item => negb (matchesCached request item)) c.

(** What [cache.addAll] requires of a fetched response. *)
Definition addAccepts (response : Response.t) : bool :=
  Response.ok response
  && negb (Nat.eqb (Response.status response) 206)
  && negb (Response.varyStar response).

(** The puts of one [cache.addAll], as a batch: a request that matches an
    item added earlier in the same batch makes the batch fail ([None]). *)
Fixpoint batchPut (entries added : Cache) (c : Cache) : option Cache :=
  match entries with
  | [] => Some c
  | (request, response) :: entries' =>
      if existsb (matchesCached request) added then None
      else batchPut entries' (added ++ [(request, response)])
                    (Cache_put request response c)
  end.

(** ** The world: cache storage and the trace of platform calls *)

(** [CacheStorage]: named caches in creation order.  The order is
    observable: [caches.keys()] lists it and [caches.match] searches it. *)
Abbreviation CacheStorage := (list (string * Cache)).

Inductive Effect :=
| NetFetch (request : Request.t)
| CachePut (cacheName href : string) (response : Response.t)
| CacheDelete (cacheName href : string)
| StorageDelete (cacheName : string)
| SkipWaiting
| ClientsClaim
| ConsoleError (msg : string)
| NotificationClose
| OpenWindow (href : string).

Record World := mkWorld {
  caches : CacheStorage;
  trace : list Effect
}.

Definition emit (e : Effect) (w : World) : World :=
  mkWorld (caches w) (trace w ++ [e]).

Definition set_caches (cs : CacheStorage) (w : World) : World :=
  mkWorld cs (trace w).

(** ** Promises: state passing with rejection *)

Inductive Error :=
| TypeError (msg : string)
| SyntaxError (msg : string)
| InvalidStateError (msg : string).

Inductive Outcome (A : Type) :=
| Fulfilled (a : A)
| Rejected (e : Error).
Arguments Fulfilled {A} a.
Arguments Rejected {A} e.

Definition Promise (A : Type) : Type := World -> Outcome A * World.

Definition resolve {A} (a : A) : Promise A := fun w => (Fulfilled a, w).

Definition reject {A} (e : Error) : Promise A := fun w => (Rejected e, w).

(** [await m] followed by [k], or [m.then(k)]. *)
Definition andThen {A B} (m : Promise A) (k : A -> Promise B) : Promise B :=
  fun w =>
    match m w with
    | (Fulfilled a, w') => k a w'
    | (Rejected e, w') => (Rejected e, w')
    end.

(** [try { m } catch (error) { h error }], or [m.catch(h)]. *)
Definition tryCatch {A} (m : Promise A) (h : Error -> Promise A) : Promise A :=
  fun w =>
    match m w with
    | (Fulfilled a, w') => (Fulfilled a, w')
    | (Rejected e, w') => h e w'
    end.

Notation "'const' x '<-' 'await' m ; k" := (andThen m (fun x => k))
  (at level 10, x name, m at level 100, k at level 200).
Notation "'await' m ; k" := (andThen m (fun _ => k))
  (at level 10, m at level 100, k at level 200).

(** [Promise.all] over computations started in list order. *)
Fixpoint Promise_all {A} (ms : list (Promise A)) : Promise (list A) :=
  match ms with
  | [] => resolve []
  | m :: ms' =>
      const a <- await m;
      const rest <- await Promise_all ms';
      resolve (a :: rest)
  end.

Definition console_error (msg : string) : Promise unit := fun w =>
  (Fulfilled tt, emit (ConsoleError msg) w).

(** The worker's [unhandledrejection] listener. *)
Definition onunhandledrejection : Promise unit :=
  console_error "Service Worker unhandled rejection:".

(** The worker's [error] listener. *)
Definition onerror : Promise unit :=
  console_error "Service Worker error:".

(** A call whose promise the worker drops: the worker goes on whatever the
    outcome, and a rejection reaches the [unhandledrejection] listener.  The
    call is taken to be settled when the worker goes on. *)
Definition unawaited {A} (m : Promise A) : Promise unit := fun w =>
  match m w with
  | (Fulfilled _, w') => (Fulfilled tt, w')
  | (Rejected _, w') => onunhandledrejection w'
  end.

(** ** Cache storage operations *)

Fixpoint storage_get (name : string) (cs : CacheStorage) : option Cache :=
  match cs with
  | [] => None
  | (n, c) :: cs' => if String.eqb n name then Some c else storage_get name cs'
  end.

Fixpoint storage_alter (f : Cache -> Cache) (name : string) (cs : CacheStorage)
  : CacheStorage :=
  match cs with
  | [] => []
  | (n, c) :: cs' =>
      if String.eqb n name then (n, f c) :: cs'
      else (n, c) :: storage_alter f name cs'
  end.

Fixpoint storage_remove (name : string) (cs : CacheStorage) : CacheStorage :=
  match cs with
  | [] => []
  | (n, c) :: cs' =>
      if String.eqb n name then cs' else (n, c) :: storage_remove name cs'
  end.

(** The first response that matches [query], searching the caches in
    creation order. *)
Fixpoint storage_match (query : Request.t) (cs : CacheStorage) : option Response.t :=
  match cs with
  | [] => None
  | (_, c) :: cs' =>
      match Cache_match query c with
      | Some r => Some r
      | None => storage_match query cs'
      end
  end.

(** The storage with the cache [name] created, last in order, when it does
    not exist. *)
Definition storage_open (name : string) (cs : CacheStorage) : CacheStorage :=
  match storage_get name cs with
  | Some _ => cs
  | None => cs ++ [(name, [])]
  end.

(** [caches.open(name)].  The handle to a cache is its name. *)
Definition caches_open (name : string) : Promise string := fun w =>
  (Fulfilled name, set_caches (storage_open name (caches w)) w).

(** [caches.keys()]. *)
Definition caches_keys : Promise (list string) := fun w =>
  (Fulfilled (map fst (caches w)), w).

(** [caches.delete(name)]. *)
Definition caches_delete (name : string) : Promise bool := fun w =>
  match storage_get name (caches w) with
  | Some _ =>
      (Fulfilled true, emit (StorageDelete name) (set_caches (storage_remove name (caches w)) w))
  | None => (Fulfilled false, w)
  end.

(** [caches.match(request)]: the first match over all the caches, in
    creation order. *)
Definition caches_match (query : Request.t) : Promise (option Response.t) := fun w =>
  (Fulfilled (storage_match query (caches w)), w).

(** [cache.match(request)] on one cache. *)
Definition cache_match (cache : string) (query : Request.t)
  : Promise (option Response.t) := fun w =>
  (Fulfilled (storage_get cache (caches w) ≫= Cache_match query), w).

(** [cache.put(request, response)]: replaces the items the request
    matches; rejects a request or response it does not accept. *)
Definition cache_put (cache : string) (request : Request.t) (response : Response.t)
  : Promise unit := fun w =>
  if putAccepts request response then
    (Fulfilled tt,
     emit (CachePut cache (Request.url request) response)
          (set_caches (storage_alter (Cache_put request response) cache (caches w)) w))
  else (Rejected (TypeError "Failed to execute 'put' on 'Cache'"), w).

(** [cache.delete(request)]. *)
Definition cache_delete (cache : string) (query : Request.t) : Promise bool := fun w =>
  match storage_get cache (caches w) ≫= Cache_match query with
  | Some _ =>
      (Fulfilled true,
       emit (CacheDelete cache (Request.url query))
            (set_caches (storage_alter (Cache_delete query) cache (caches w)) w))
  | None => (Fulfilled false, w)
  end.

Definition skipWaiting : Promise unit := fun w =>
  (Fulfilled tt, emit SkipWaiting w).

Definition clients_claim : Promise unit := fun w =>
  (Fulfilled tt, emit ClientsClaim w).

Definition clients_openWindow (href : string) : Promise unit := fun w =>
  (Fulfilled tt, emit (OpenWindow href) w).

Definition notification_close : Promise unit := fun w =>
  (Fulfilled tt, emit NotificationClose w).

(** ** The worker

    [location_origin] is [self.location.origin], the origin the worker is
    served from.  [network] is the network as [fetch] sees it: the response
    a request gets, or [None] when the fetch fails (the promise rejects).
    [JSON_parse] and [JSON_stringify] are the platform's JSON functions. *)

Section Worker.

Variable location_origin : string.
Variable network : Request.t -> option Response.t.
Variable JSON_parse : string -> option JSValue.
Variable JSON_stringify : JSValue -> string.

(** The absolute URL of a URL string of one of the two shapes the worker
    writes, resolved against the worker's location: a path starting with
    [/] is put under [location_origin], an absolute http(s) URL without a
    path gets the path [/]. *)
Definition resolveURL (s : string) : string :=
  if String.prefix "/" s then location_origin +:+ s
  else
    match scheme_of s with
    | Some sch =>
        let (authority, rest) := span_authority (drop_string (String.length sch) s) in
        if String.prefix "/" rest then s
        else sch +:+ authority +:+ "/" +:+ rest
    | None => s
    end.

(** [fetch(request)]: rejects with a [TypeError] when the network fails. *)
Definition fetch (request : Request.t) : Promise Response.t := fun w =>
  match network request with
  | Some r => (Fulfilled r, emit (NetFetch request) w)
  | None => (Rejected (TypeError "Failed to fetch"), emit (NetFetch request) w)
  end.

(** [response.json()]: rejects with a [SyntaxError] on a body that is not
    JSON. *)
Definition Response_json (r : Response.t) : Promise JSValue :=
  match JSON_parse (Response.body r) with
  | Some v => resolve v
  | None => reject (SyntaxError "Unexpected token")
  end.

(** A request sent to the network, and what comes back; a failure is not
    an exception yet. *)
Definition send (request : Request.t) : Promise (option Response.t) := fun w =>
  (Fulfilled (network request), emit (NetFetch request) w).

(** The fetches of [cache.addAll]: every request is sent before any
    response is looked at; a request whose scheme is not http(s) rejects the
    call on the spot. *)
Fixpoint startFetches (requests : list Request.t)
  : Promise (list (option Response.t)) :=
  match requests with
  | [] => resolve []
  | request :: requests' =>
      if isHTTP (Request.url request) then
        const response <- await send request;
        const rest <- await startFetches requests';
        resolve (response :: rest)
      else reject (TypeError "Request scheme is unsupported")
  end.

(** The request/response pairs [cache.addAll] is to store: [None] when a
    fetch failed or a response is not accepted. *)
Fixpoint accepted (requests : list Request.t) (responses : list (option Response.t))
  : option Cache :=
  match requests, responses with
  | [], [] => Some []
  | request :: requests', Some response :: responses' =>
      if addAccepts response
      then (fun entries => (request, response) :: entries) <$> accepted requests' responses'
      else None
  | _, _ => None
  end.

(** The batch of puts that ends [cache.addAll]: all of them or none. *)
Definition cache_putAll (cache : string) (entries : Cache) : Promise unit := fun w =>
  match batchPut entries [] (default [] (storage_get cache (caches w))) with
  | Some c' =>
      (Fulfilled tt,
       mkWorld (storage_alter (fun _ => c') cache (caches w))
               (trace w ++ map (fun e => CachePut cache (Request.url e.1) e.2) entries))
  | None => (Rejected (InvalidStateError "duplicate requests"), w)
  end.

(** [cache.addAll(requests)], the requests given as URL strings: nothing is
    stored unless every request was fetched with a response that is
    accepted and no two requests match one item. *)
Definition cache_addAll (cache : string) (requests : list string) : Promise unit :=
  const responses <- await startFetches (map (fun s => GET (resolveURL s)) requests);
  match accepted (map (fun s => GET (resolveURL s)) requests) responses with
  | Some entries => cache_putAll cache entries
  | None => reject (TypeError "Request failed")
  end.

Definition CACHE_NAME := "propgrid-v1.0.0".
Definition STATIC_CACHE := "propgrid-static-v1.0.0".
Definition DYNAMIC_CACHE := "propgrid-dynamic-v1.0.0".

(** Files to cache immediately. *)
Definition STATIC_FILES : list string := [
  "/";
  "/index.html";
  "/script.js";
  "https://cdn.tailwindcss.com";
  "https://fonts.googleapis.com/css2?family=Inter:wght@400;500;600;700&display=swap";
  "https://cdnjs.cloudflare.com/ajax/libs/font-awesome/6.4.0/css/all.min.css"
].

(** The [install] listener: the promise it hands to [event.waitUntil]. *)
Definition install : Promise unit :=
  tryCatch
    (const cache <- await caches_open STATIC_CACHE;
     await cache_addAll cache STATIC_FILES;
     skipWaiting)
    (fun error => console_error "Service Worker install failed:").

(** The arrow function the [activate] listener maps over the cache names:
    it yields [undefined] for the two current caches. *)
Definition deleteIfOld (cacheName : string) : Promise (option bool) :=
  if negb (String.eqb cacheName STATIC_CACHE)
     && negb (String.eqb cacheName DYNAMIC_CACHE)
  then const deleted <- await caches_delete cacheName; resolve (Some deleted)
  else resolve None.

(** The [activate] listener: the promise it hands to [event.waitUntil]. *)
Definition activate : Promise unit :=
  const cacheNames <- await caches_keys;
  await Promise_all (map deleteIfOld cacheNames);
  clients_claim.

(** Handle same-origin requests: network first, then the caches.  The
    handler does not await its [cache.put], and [response.clone()] is taken
    to be the response. *)
Definition handleSameOriginRequest (request : Request.t) : Promise (option Response.t) :=
  tryCatch
    (const networkResponse <- await fetch request;
     await (if Response.ok networkResponse
            then const cache <- await caches_open DYNAMIC_CACHE;
                 unawaited (cache_put cache request networkResponse)
            else resolve tt);
     resolve (Some networkResponse))
    (fun error =>
       const cachedResponse <- await caches_match request;
       match cachedResponse with
       | Some r => resolve (Some r)
       | None => caches_match (GET (resolveURL "/offline.html"))
       end).

(** Handle CDN requests: the caches first, then the network. *)
Definition handleCDNRequest (request : Request.t) : Promise (option Response.t) :=
  tryCatch
    (const cachedResponse <- await caches_match request;
     match cachedResponse with
     | Some r => resolve (Some r)
     | None =>
         const networkResponse <- await fetch request;
         await (if Response.ok networkResponse
                then const cache <- await caches_open STATIC_CACHE;
                     unawaited (cache_put cache request networkResponse)
                else resolve tt);
         resolve (Some networkResponse)
     end)
    (fun error =>
       if includes (Request.url request) "tailwindcss.com"
       then resolve (Some (Response.create "/* Tailwind CSS fallback */"
                                           [("Content-Type", "text/css")]))
       else reject error).

(** Handle external requests: network only. *)
Definition handleExternalRequest (request : Request.t) : Promise (option Response.t) :=
  tryCatch
    (const response <- await fetch request;
     resolve (Some response))
    (fun error =>
       resolve (Some (Response.create_status "Offline" 503 "Service Unavailable"))).

(** The [fetch] listener: the promise given to [event.respondWith], or
    [None] when the listener returns without responding and the request
    goes to the network untouched. *)
Definition onfetch (request : Request.t) : option (Promise (option Response.t)) :=
  let origin := URL_origin (Request.url request) in
  if negb (String.eqb (Request.method request) "GET") then None
  else if String.eqb origin location_origin then
    Some (handleSameOriginRequest request)
  else if includes origin "cdn.tailwindcss.com"
          || includes origin "fonts.googleapis.com"
          || includes origin "cdnjs.cloudflare.com" then
    Some (handleCDNRequest request)
  else Some (handleExternalRequest request).

(** Utility functions for background sync. *)
Definition getStoredFormData : Promise JSValue :=
  tryCatch
    (const cache <- await caches_open DYNAMIC_CACHE;
     const response <- await cache_match cache (GET (resolveURL "/form-data"));
     match response with
     | Some r => Response_json r
     | None => resolve JNull
     end)
    (fun error =>
       await console_error "Error getting stored form data:";
       resolve JNull).

Definition clearStoredFormData : Promise unit :=
  tryCatch
    (const cache <- await caches_open DYNAMIC_CACHE;
     await cache_delete cache (GET (resolveURL "/form-data"));
     resolve tt)
    (fun error => console_error "Error clearing stored form data:").

(** The request of [fetch('/api/signup', { method: 'POST', ... })]. *)
Definition signupRequest (formData : JSValue) : Request.t :=
  Request.mk "POST" (resolveURL "/api/signup")
             [("Content-Type", "application/json")]
             (JSON_stringify formData).

Definition doBackgroundSync : Promise unit :=
  tryCatch
    (const formData <- await getStoredFormData;
     if truthy formData then
       const response <- await fetch (signupRequest formData);
       if Response.ok response then clearStoredFormData else resolve tt
     else resolve tt)
    (fun error => console_error "Background sync failed:").

(** The [sync] listener. *)
Definition onsync (tag : string) : Promise unit :=
  if String.eqb tag "background-sync" then doBackgroundSync else resolve tt.

(** The actions of the notification the [push] listener shows, as
    (action, title) pairs. *)
Definition notificationActions : list (string * string) :=
  [("explore", "View Deal"); ("close", "Close")].

(** The [notificationclick] listener; [action] is [event.action], the empty
    string when the notification itself was clicked. *)
Definition onnotificationclick (action : string) : Promise unit :=
  await notification_close;
  if String.eqb action "explore"
  then clients_openWindow (resolveURL "/")
  else resolve tt.

End Worker.

(** ** The message listener *)

(** [event.data] of a message, as far as the listener reads it: its [type]
    and its [urls], each possibly missing. *)
Module Message.

Record t := mk {
  type : option string;
  urls : option (list string)
}.

End Message.

(** [event.data && event.data.type === t]; [data] is [None] for a message
    without (truthy) data. *)
Definition hasType (data : option Message.t) (t : string) : bool :=
  match data with
  | Some m =>
      match Message.type m with
      | Some ty => String.eqb ty t
      | None => false
      end
  | None => false
  end.

Section MessageListener.

Variable location_origin : string.
Variable network : Request.t -> option Response.t.

(** [cache.addAll(event.data.urls)]: a message without [urls] passes
    [undefined], which is no sequence of requests. *)
Definition cache_addAll_urls (cache : string) (urls : option (list string))
  : Promise unit :=
  match urls with
  | Some requests => cache_addAll location_origin network cache requests
  | None => reject (TypeError "The provided value cannot be converted to a sequence")
  end.

(** The [message] listener.  The promise of [self.skipWaiting()] is dropped;
    the result is the promise handed to [event.waitUntil], if any. *)
Definition onmessage (data : option Message.t) : Promise unit :=
  await (if hasType data "SKIP_WAITING" then unawaited skipWaiting else resolve tt);
  if hasType data "CACHE_URLS" then
    const cache <- await caches_open DYNAMIC_CACHE;
    cache_addAll_urls cache (data ≫= Message.urls)
  else resolve tt.

End MessageListener.

(** ** Observations on worlds and outcomes *)

(** The platform's verdict on the promise the [install] listener gave to
    [event.waitUntil]: the worker is installed when it fulfils and
    discarded when it rejects. *)
Inductive InstallVerdict := Installed | Redundant.

Definition installVerdict (o : Outcome unit) : InstallVerdict :=
  match o with
  | Fulfilled _ => Installed
  | Rejected _ => Redundant
  end.

(** The number of network fetches in a trace. *)
Definition isNetFetch (e : Effect) : bool :=
  match e with
  | NetFetch _ => true
  | _ => false
  end.

Definition fetchCount (tr : list Effect) : nat :=
  length (List.filter isNetFetch tr).

(** What [cache.match(request)] finds in the cache generation [name]. *)
Definition entryFor (name : string) (request : Request.t) (w : World)
  : option Response.t :=
  storage_get name (caches w) ≫= Cache_match request.

(** What [cache.match(href)] finds in the cache generation [name]. *)
Definition entry (name href : string) (w : World) : option Response.t :=
  entryFor name (GET href) w.

(** The cache generation [name] holds the request/response pair [item]. *)
Definition cached (name : string) (item : Request.t * Response.t) (w : World) : Prop :=
  exists c, storage_get name (caches w) = Some c /\ In item c.

(** The cache generations created before the generation [name]. *)
Fixpoint storage_before (name : string) (cs : CacheStorage) : CacheStorage :=
  match cs with
  | [] => []
  | (n, c) :: cs' =>
      if String.eqb n name then [] else (n, c) :: storage_before name cs'
  end.

(** The cache generations the current version keeps on activation. *)
Definition isCurrent (name : string) : Prop :=
  name = STATIC_CACHE \/ name = DYNAMIC_CACHE.

(** [w'] holds no new pair and saw no new [cache.put] but of ok responses. *)
Definition storesOkOnly (w w' : World) : Prop :=
  (forall name item,
     cached name item w' ->
     cached name item w \/ Response.ok item.2 = true) /\
  (forall name href r,
     In (CachePut name href r) (trace w') ->
     In (CachePut name href r) (trace w) \/ Response.ok r = true).

(** [cache.addAll] can store [href]: its scheme is http(s) and the network
    answers a GET for it with a response that [addAll] accepts. *)
Definition addable (net : Request.t -> option Response.t) (href : string) : bool :=
  isHTTP href &&
  match net (GET href) with
  | Some r => addAccepts r
  | None => false
  end.

(** The request URLs of the precache manifest, as [cache.addAll] resolves
    them for a worker served from [origin]. *)
Definition manifestURLs (origin : string) : list string :=
  map (resolveURL origin) STATIC_FILES.

(** A manifest request matches the cached item. *)
Definition inManifest (origin : string) (item : Request.t * Response.t) : bool :=
  existsb (fun href => matchesCached (GET href) item) (manifestURLs origin).

(** The pairs [cache.addAll] stores for [hrefs]: each request with the
    response the network gives it. *)
Fixpoint precache (net : Request.t -> option Response.t) (hrefs : list string) : Cache :=
  match hrefs with
  | [] => []
  | href :: hrefs' =>
      match net (GET href) with
      | Some r => (GET href, r) :: precache net hrefs'
      | None => precache net hrefs'
      end
  end.

(** No request of a batch matches an item added earlier in the batch. *)
Fixpoint batchDistinct (entries added : Cache) : bool :=
  match entries with
  | [] => true
  | (request, response) :: entries' =>
      negb (existsb (matchesCached request) added)
      && batchDistinct entries' (added ++ [(request, response)])
  end.

(** ** Concrete scenarios

    A deployment of the site and a few networks, used to run the worker on
    concrete inputs. *)

Definition site_origin := "https://propgrid.com".

Definition page (b : string) : Response.t :=
  Response.mk 200 "OK" [("Content-Type", "text/html")] b.

(** A network on which every request is answered with status 200; [v]
    tells apart what the servers returned at different times. *)
Definition online (v : string) : Request.t -> option Response.t :=
  fun request => Some (page (v +:+ " " +:+ Request.url request)).

(** No network: every fetch fails. *)
Definition offline : Request.t -> option Response.t := fun _ => None.

(** A network whose servers answer every request with status 500. *)
Definition failing : Request.t -> option Response.t :=
  fun _ => Some (Response.mk 500 "Internal Server Error" [] "").

(** A network whose servers answer every request with a part of the
    resource, status 206. *)
Definition partialContent : Response.t :=
  Response.mk 206 "Partial Content" [("Content-Range", "bytes 0-9/100")] "0123456789".

Definition partially : Request.t -> option Response.t :=
  fun _ => Some partialContent.

(** Cache storage of a browser that never ran the worker. *)
Definition fresh : World := mkWorld [] [].

(** Storage left behind by version 0.9.0, with the static cache of version
    1.0.0 next to it. *)
Definition upgraded : World :=
  mkWorld [("propgrid-static-v0.9.0", [(GET "https://propgrid.com/", page "old")]);
           ("propgrid-dynamic-v0.9.0", []);
           (STATIC_CACHE, [(GET "https://propgrid.com/", page "new")])] [].

(** The storage after version 1.0.0 was installed from the network. *)
Definition installed : World := snd (install site_origin (online "v1") fresh).

Definition indexPage : Request.t := GET "https://propgrid.com/index.html".
Definition aboutPage : Request.t := GET "https://propgrid.com/about.html".
Definition offlinePage : Request.t := GET "https://propgrid.com/offline.html".
Definition tailwind : Request.t := GET "https://cdn.tailwindcss.com/".
Definition fontAwesome : Request.t :=
  GET "https://cdnjs.cloudflare.com/ajax/libs/font-awesome/6.4.0/css/all.min.css".

Definition robotoFont : Request.t :=
  GET "https://fonts.googleapis.com/css2?family=Roboto".

(** A stylesheet of another CDN whose URL mentions the CSS framework. *)
Definition referredStyle : Request.t :=
  GET "https://cdnjs.cloudflare.com/x.css?ref=tailwindcss.com".

(** [installed], after a page fetched the offline page while online. *)
Definition withOfflinePage : World :=
  snd (handleSameOriginRequest site_origin (online "v1") offlinePage installed).

(** [installed], after a page fetched the index page again, when the
    servers had moved on to [v2]. *)
Definition revisited : World :=
  snd (handleSameOriginRequest site_origin (online "v2") indexPage installed).

(** The static cache of version 1.0.0 holding a stylesheet that the CDN
    handler stored, before the worker script is installed again. *)
Definition warm : World :=
  mkWorld [(STATIC_CACHE, [(robotoFont, page "v0")])] [].

(** A JSON codec for the two values the scenarios need. *)
Definition parseJSON (s : string) : option JSValue :=
  if String.eqb s "{}" then Some (JObject [])
  else if String.eqb s "null" then Some JNull
  else None.

Definition stringifyJSON (v : JSValue) : string :=
  match v with
  | JObject [] => "{}"
  | _ => "null"
  end.

(** A signup form waiting in the dynamic cache for the next sync. *)
Definition storedForm : Response.t :=
  Response.mk 200 "OK" [("Content-Type", "application/json")] "{}".

Definition pending : World :=
  mkWorld [(STATIC_CACHE, []);
           (DYNAMIC_CACHE, [(GET "https://propgrid.com/form-data", storedForm)])] [].

(** * Properties *)

(** ** Cache storage *)

Lemma storage_get_app name cs1 cs2 :
  storage_get name (cs1 ++ cs2) =
  match storage_get name cs1 with
  | Some c => Some c
  | None => storage_get name cs2
  end.
Proof.
  induction cs1 as [|[n c] cs1 IH]; simpl; [done|].
  destruct (String.eqb n name); done.
Qed.

Lemma storage_get_alter f name name' cs :
  storage_get name' (storage_alter f name cs) =
  if String.eqb name name' then f <$> storage_get name' cs
  else storage_get name' cs.
Proof.
  induction cs as [|[n c] cs IH]; simpl.
  - by destruct (String.eqb name name').
  - destruct (String.eqb n name) eqn:E; simpl.
    + apply String.eqb_eq in E as ->.
      destruct (String.eqb name name') eqn:E'; simpl; by rewrite ?E'.
    + destruct (String.eqb n name') eqn:E'; simpl; [|done].
      apply String.eqb_eq in E' as ->. by rewrite String.eqb_sym, E.
Qed.

Lemma storage_remove_app name cs1 cs2 :
  storage_get name cs1 = None ->
  storage_remove name (cs1 ++ cs2) = cs1 ++ storage_remove name cs2.
Proof.
  induction cs1 as [|[n c] cs1 IH]; simpl; [done|].
  destruct (String.eqb n name); [done|]. intros H. by rewrite IH.
Qed.

Lemma storage_get_kept name (kept : CacheStorage) :
  Forall (fun nc => isCurrent nc.1) kept -> ~ isCurrent name ->
  storage_get name kept = None.
Proof.
  induction 1 as [|[n c] kept Hn _ IH]; simpl; intros Hname; [done|].
  destruct (String.eqb n name) eqn:E; [|by apply IH].
  apply String.eqb_eq in E as ->. done.
Qed.

(** ** Activation *)

Lemma old_or_current name :
  negb (String.eqb name STATIC_CACHE) && negb (String.eqb name DYNAMIC_CACHE) = true
  <-> ~ isCurrent name.
Proof.
  unfold isCurrent.
  destruct (String.eqb_spec name STATIC_CACHE), (String.eqb_spec name DYNAMIC_CACHE);
    simpl; intuition congruence.
Qed.

(** Running the deletions over the names of [cs], with the caches already
    found current in front: the old caches go, one deletion each. *)
Lemma delete_old_caches cs : forall kept tr,
  Forall (fun nc => isCurrent nc.1) kept ->
  exists results,
    Promise_all (map deleteIfOld (map fst cs)) (mkWorld (kept ++ cs) tr) =
    (Fulfilled results,
     mkWorld (kept ++ filter (fun nc => isCurrent nc.1) cs)
             (tr ++ map StorageDelete
                        (filter (fun n => ~ isCurrent n) (map fst cs)))).
Proof.
  induction cs as [|[n c] cs IH]; intros kept tr Hkept; simpl.
  - exists []. unfold resolve. by rewrite !app_nil_r.
  - unfold andThen, deleteIfOld at 1.
    destruct (negb (String.eqb n STATIC_CACHE) && negb (String.eqb n DYNAMIC_CACHE))
      eqn:E.
    + apply old_or_current in E.
      unfold andThen, caches_delete; simpl.
      rewrite storage_get_app, (storage_get_kept n kept Hkept E); simpl.
      rewrite String.eqb_refl; simpl.
      rewrite storage_remove_app by by apply storage_get_kept.
      simpl. rewrite String.eqb_refl.
      unfold emit, set_caches; simpl.
      destruct (IH kept (tr ++ [StorageDelete n]) Hkept) as [results ->].
      exists (Some true :: results). unfold resolve.
      rewrite filter_cons_False by done.
      rewrite filter_cons_True by done.
      simpl. by rewrite <- app_assoc.
    + assert (isCurrent n) as Hn.
      { destruct (decide (isCurrent n)) as [|Hn]; [done|].
        apply old_or_current in Hn. congruence. }
      unfold resolve at 1.
      destruct (IH (kept ++ [(n, c)]) tr) as [results Hres].
      { apply Forall_app. split; [done|]. by constructor. }
      rewrite <- app_assoc in Hres. simpl in Hres. rewrite Hres.
      exists (None :: results). unfold resolve.
      rewrite filter_cons_True by done.
      rewrite filter_cons_False by (simpl; tauto).
      by rewrite <- app_assoc.
Qed.

Lemma storage_get_filter_current name (cs : CacheStorage) :
  storage_get name (filter (fun nc => isCurrent nc.1) cs) =
  if decide (isCurrent name) then storage_get name cs else None.
Proof.
  induction cs as [|[n c] cs IH]; simpl.
  - by case_decide.
  - destruct (decide (isCurrent n)) as [Hn|Hn].
    + rewrite filter_cons_True by done. simpl.
      destruct (String.eqb_spec n name) as [->|Hne]; [|done].
      by destruct (decide (isCurrent name)).
    + rewrite filter_cons_False by done. rewrite IH. simpl.
      destruct (String.eqb_spec n name) as [->|Hne]; [|done].
      by destruct (decide (isCurrent name)).
Qed.

(** C4. When the activate event runs, every cache generation whose key is
    neither the current static key nor the current dynamic key is deleted,
    the two current generations are kept as they are, so no generation of
    another version remains, and only then does the worker claim the open
    clients. *)
Theorem activate_deletes_old_generations (w : World) :
  exists w',
    activate w = (Fulfilled tt, w') /\
    caches w' = filter (fun nc => isCurrent nc.1) (caches w) /\
    (forall name, name <> STATIC_CACHE -> name <> DYNAMIC_CACHE ->
                  storage_get name (caches w') = None) /\
    storage_get STATIC_CACHE (caches w') = storage_get STATIC_CACHE (caches w) /\
    storage_get DYNAMIC_CACHE (caches w') = storage_get DYNAMIC_CACHE (caches w) /\
    trace w' =
      trace w
      ++ map StorageDelete (filter (fun n => ~ isCurrent n) (map fst (caches w)))
      ++ [ClientsClaim].
Proof.
  destruct w as [cs tr].
  destruct (delete_old_caches cs [] tr) as [results Hrun]; [constructor|].
  simpl in Hrun.
  eexists. split.
  { unfold activate, andThen, caches_keys; simpl. rewrite Hrun.
    unfold clients_claim, emit; simpl. reflexivity. }
  simpl. split; [done|]. split; [|split; [|split]].
  - intros name Hs Hd. rewrite storage_get_filter_current.
    rewrite decide_False; [done|]. unfold isCurrent. tauto.
  - rewrite storage_get_filter_current. rewrite decide_True; [done|]. by left.
  - rewrite storage_get_filter_current. rewrite decide_True; [done|]. by right.
  - by rewrite <- app_assoc.
Qed.

Lemma activate_deletes_old_generations_witness :
  storage_get "propgrid-static-v0.9.0" (caches (snd (activate upgraded))) = None /\
  storage_get "propgrid-dynamic-v0.9.0" (caches (snd (activate upgraded))) = None.
Proof.
  destruct (activate_deletes_old_generations upgraded)
    as (w' & Hrun & _ & Hgone & _).
  rewrite Hrun. simpl. split; apply Hgone; discriminate.
Defined.

(** ** Notification clicks *)

(** C9, as the code has it. A click on a displayed notification closes it;
    the site's root URL is opened only on the [explore] action (the
    "View Deal" button); any other click, the default click on the
    notification body included, opens nothing. *)
Theorem notificationclick_opens_on_explore_only origin (action : string) (w : World) :
  onnotificationclick origin action w =
  (Fulfilled tt,
   mkWorld (caches w)
           (trace w ++ NotificationClose ::
              (if String.eqb action "explore"
               then [OpenWindow (origin +:+ "/")] else []))).
Proof.
  unfold onnotificationclick, andThen, notification_close; simpl.
  destruct (String.eqb action "explore"); simpl.
  - unfold clients_openWindow, emit; simpl. by rewrite <- app_assoc.
  - reflexivity.
Qed.

(** C9, as stated, fails: a default click (no action) on the notification
    closes it and opens no window. *)
Lemma notificationclick_default_opens_nothing :
  onnotificationclick site_origin "" fresh =
  (Fulfilled tt, mkWorld [] [NotificationClose]) /\
  ~ In (OpenWindow (site_origin +:+ "/"))
       (trace (snd (onnotificationclick site_origin "" fresh))).
Proof.
  split; [reflexivity|]. simpl. intros [H|[]]. discriminate H.
Qed.

(** ** Opening a cache *)

Lemma storage_get_open name name' cs :
  storage_get name' (storage_open name cs) =
  match storage_get name' cs with
  | Some c => Some c
  | None => if String.eqb name name' then Some [] else None
  end.
Proof.
  unfold storage_open.
  destruct (storage_get name cs) eqn:E.
  - destruct (storage_get name' cs) eqn:E'; [done|].
    destruct (String.eqb_spec name name') as [->|]; congruence.
  - rewrite storage_get_app. by destruct (storage_get name' cs).
Qed.

(** ** Matching and putting *)

Lemma matchesCached_self q r :
  Request.method q = "GET" -> Response.varyStar r = false ->
  matchesCached q (q, r) = true.
Proof.
  intros Hget Hstar. unfold matchesCached. cbn [fst snd].
  rewrite Hget, !String.eqb_refl. cbn [andb].
  unfold Response.varyStar in Hstar.
  induction (Response.varyFields r) as [|f fs IH]; [done|].
  simpl in *. apply orb_false_iff in Hstar as [Hf Hfs].
  rewrite Hf, IH by done. by rewrite bool_decide_eq_true_2.
Qed.

Lemma Cache_find_app q (c1 c2 : Cache) :
  Cache_find q (c1 ++ c2) =
  match Cache_find q c1 with
  | Some r => Some r
  | None => Cache_find q c2
  end.
Proof.
  induction c1 as [|item c1 IH]; simpl; [done|].
  by destruct (matchesCached q item).
Qed.

Lemma Cache_find_filter_out q (c : Cache) :
  Cache_find q (List.filter (fun item => negb (matchesCached q item)) c) = None.
Proof.
  induction c as [|item c IH]; simpl; [done|].
  destruct (matchesCached q item) eqn:E; simpl; [done|]. by rewrite E.
Qed.

Lemma putAccepts_inv q r :
  putAccepts q r = true ->
  isHTTP (Request.url q) = true /\ Request.method q = "GET" /\
  Response.status r <> 206 /\ Response.varyStar r = false.
Proof.
  unfold putAccepts. rewrite !andb_true_iff, !negb_true_iff.
  intros [[[Hhttp Hget] Hstatus] Hstar].
  split; [done|]. split; [by apply String.eqb_eq|]. split; [|done].
  by apply Nat.eqb_neq.
Qed.

(** What was put is found again by the same request. *)
Lemma Cache_match_put q r (c : Cache) :
  putAccepts q r = true -> Cache_match q (Cache_put q r c) = Some r.
Proof.
  intros Hacc. destruct (putAccepts_inv q r Hacc) as (_ & Hget & _ & Hstar).
  unfold Cache_match, Cache_put. rewrite Hget. simpl.
  rewrite Cache_find_app, Cache_find_filter_out. simpl.
  by rewrite matchesCached_self.
Qed.

Lemma Cache_match_delete q (c : Cache) : Cache_match q (Cache_delete q c) = None.
Proof.
  unfold Cache_match, Cache_delete.
  destruct (String.eqb (Request.method q) "GET"); [|done].
  apply Cache_find_filter_out.
Qed.

Lemma In_Cache_put item q r (c : Cache) :
  In item (Cache_put q r c) -> In item c \/ item = (q, r).
Proof.
  unfold Cache_put. rewrite in_app_iff, List.filter_In. simpl.
  intros [[? _]|[?|[]]]; auto.
Qed.

Lemma storage_open_cons_ne name n c cs :
  n <> name -> storage_open name ((n, c) :: cs) = (n, c) :: storage_open name cs.
Proof.
  intros Hne. unfold storage_open. simpl.
  destruct (String.eqb_spec n name); [done|].
  by destruct (storage_get name cs).
Qed.

Lemma storage_open_cons_eq name c cs :
  storage_open name ((name, c) :: cs) = (name, c) :: cs.
Proof. unfold storage_open. simpl. by rewrite String.eqb_refl. Qed.

(** The pairs cached after a put into a cache just opened. *)
Lemma cached_put name q r name' item cs tr tr' :
  cached name' item
         (mkWorld (storage_alter (Cache_put q r) name (storage_open name cs)) tr') ->
  cached name' item (mkWorld cs tr) \/ item = (q, r).
Proof.
  unfold cached. cbn [caches]. intros (c' & Hget & Hin).
  rewrite storage_get_alter, storage_get_open in Hget.
  destruct (String.eqb name name').
  - destruct (storage_get name' cs) as [c|] eqn:Hc; simpl in Hget.
    + injection Hget as <-. apply In_Cache_put in Hin as [Hin | ->]; [|by right].
      left. by exists c.
    + injection Hget as <-. apply In_Cache_put in Hin as [[] | ->]. by right.
  - destruct (storage_get name' cs) as [c|] eqn:Hc; [|done].
    injection Hget as <-. left. by exists c.
Qed.

Lemma cached_open name name' item cs tr tr' :
  cached name' item (mkWorld (storage_open name cs) tr') ->
  cached name' item (mkWorld cs tr).
Proof.
  unfold cached. cbn [caches]. intros (c' & Hget & Hin).
  rewrite storage_get_open in Hget.
  destruct (storage_get name' cs) as [c|] eqn:Hc.
  - injection Hget as <-. by exists c.
  - destruct (String.eqb name name'); [|done]. injection Hget as <-. destruct Hin.
Qed.

(** What the request finds after a put into a cache just opened. *)
Lemma entryFor_put name q r cs tr :
  putAccepts q r = true ->
  entryFor name q
           (mkWorld (storage_alter (Cache_put q r) name (storage_open name cs)) tr) =
  Some r.
Proof.
  intros Hacc. unfold entryFor. cbn [caches].
  rewrite storage_get_alter, String.eqb_refl, storage_get_open, String.eqb_refl.
  destruct (storage_get name cs); simpl; by apply Cache_match_put.
Qed.

(** Over the whole storage, the request finds what an earlier generation
    holds for it, and else what was put. *)
Lemma storage_match_put name q r cs :
  putAccepts q r = true ->
  storage_match q (storage_alter (Cache_put q r) name (storage_open name cs)) =
  Some (default r (storage_match q (storage_before name cs))).
Proof.
  intros Hacc. induction cs as [|[n c] cs IH].
  - simpl. rewrite String.eqb_refl. simpl. by rewrite Cache_match_put.
  - destruct (String.eqb_spec n name) as [->|Hne].
    + rewrite storage_open_cons_eq. simpl. rewrite String.eqb_refl. simpl.
      by rewrite Cache_match_put.
    + rewrite storage_open_cons_ne by done. simpl.
      destruct (String.eqb_spec n name); [done|]. simpl.
      by destruct (Cache_match q c).
Qed.

(** ** The fetch handlers, run step by step *)

Section Handlers.

Variable origin : string.
Variable net : Request.t -> option Response.t.

(** An ok network response that [cache.put] accepts is stored for the
    request and returned. *)
Lemma sameOrigin_online_ok request r w :
  net request = Some r -> Response.ok r = true -> putAccepts request r = true ->
  handleSameOriginRequest origin net request w =
  (Fulfilled (Some r),
   mkWorld (storage_alter (Cache_put request r) DYNAMIC_CACHE
                          (storage_open DYNAMIC_CACHE (caches w)))
           (trace w ++ [NetFetch request;
                        CachePut DYNAMIC_CACHE (Request.url request) r])).
Proof.
  intros Hnet Hok Hacc.
  unfold handleSameOriginRequest, tryCatch, andThen, fetch. rewrite Hnet, Hok.
  unfold caches_open, unawaited, cache_put. cbn [emit set_caches caches trace].
  rewrite Hacc. unfold resolve, emit, set_caches. cbn [caches trace]. by rewrite <- app_assoc.
Qed.

(** An ok network response that [cache.put] refuses is returned all the
    same; nothing is stored, and the rejection of the dropped promise is
    logged. *)
Lemma sameOrigin_online_refused request r w :
  net request = Some r -> Response.ok r = true -> putAccepts request r = false ->
  handleSameOriginRequest origin net request w =
  (Fulfilled (Some r),
   mkWorld (storage_open DYNAMIC_CACHE (caches w))
           (trace w ++ [NetFetch request;
                        ConsoleError "Service Worker unhandled rejection:"])).
Proof.
  intros Hnet Hok Hacc.
  unfold handleSameOriginRequest, tryCatch, andThen, fetch. rewrite Hnet, Hok.
  unfold caches_open, unawaited, cache_put. cbn [emit set_caches caches trace].
  rewrite Hacc. unfold onunhandledrejection, console_error, resolve, emit, set_caches.
  cbn [caches trace]. by rewrite <- app_assoc.
Qed.

(** A network response that is not ok is returned and nothing is stored. *)
Lemma sameOrigin_online_not_ok request r w :
  net request = Some r -> Response.ok r = false ->
  handleSameOriginRequest origin net request w =
  (Fulfilled (Some r), emit (NetFetch request) w).
Proof.
  intros Hnet Hok.
  unfold handleSameOriginRequest, tryCatch, andThen, fetch. by rewrite Hnet, Hok.
Qed.

(** Without network the caches answer, and then the cached offline page. *)
Lemma sameOrigin_offline request w :
  net request = None ->
  handleSameOriginRequest origin net request w =
  (Fulfilled
     match storage_match request (caches w) with
     | Some r => Some r
     | None => storage_match (GET (origin +:+ "/offline.html")) (caches w)
     end,
   emit (NetFetch request) w).
Proof.
  intros Hnet.
  unfold handleSameOriginRequest, tryCatch, andThen, fetch. rewrite Hnet.
  unfold caches_match; simpl.
  by destruct (storage_match request (caches w)).
Qed.

Lemma CDN_cached request r w :
  storage_match request (caches w) = Some r ->
  handleCDNRequest net request w = (Fulfilled (Some r), w).
Proof.
  intros Hhit.
  unfold handleCDNRequest, tryCatch, andThen, caches_match. by rewrite Hhit.
Qed.

Lemma CDN_miss_ok request r w :
  storage_match request (caches w) = None ->
  net request = Some r -> Response.ok r = true -> putAccepts request r = true ->
  handleCDNRequest net request w =
  (Fulfilled (Some r),
   mkWorld (storage_alter (Cache_put request r) STATIC_CACHE
                          (storage_open STATIC_CACHE (caches w)))
           (trace w ++ [NetFetch request;
                        CachePut STATIC_CACHE (Request.url request) r])).
Proof.
  intros Hmiss Hnet Hok Hacc.
  unfold handleCDNRequest, tryCatch, andThen, caches_match, fetch.
  rewrite Hmiss, Hnet, Hok.
  unfold caches_open, unawaited, cache_put. cbn [emit set_caches caches trace].
  rewrite Hacc. unfold resolve, emit, set_caches. cbn [caches trace]. by rewrite <- app_assoc.
Qed.

Lemma CDN_miss_refused request r w :
  storage_match request (caches w) = None ->
  net request = Some r -> Response.ok r = true -> putAccepts request r = false ->
  handleCDNRequest net request w =
  (Fulfilled (Some r),
   mkWorld (storage_open STATIC_CACHE (caches w))
           (trace w ++ [NetFetch request;
                        ConsoleError "Service Worker unhandled rejection:"])).
Proof.
  intros Hmiss Hnet Hok Hacc.
  unfold handleCDNRequest, tryCatch, andThen, caches_match, fetch.
  rewrite Hmiss, Hnet, Hok.
  unfold caches_open, unawaited, cache_put. cbn [emit set_caches caches trace].
  rewrite Hacc. unfold onunhandledrejection, console_error, resolve, emit, set_caches.
  cbn [caches trace]. by rewrite <- app_assoc.
Qed.

Lemma CDN_miss_not_ok request r w :
  storage_match request (caches w) = None ->
  net request = Some r -> Response.ok r = false ->
  handleCDNRequest net request w =
  (Fulfilled (Some r), emit (NetFetch request) w).
Proof.
  intros Hmiss Hnet Hok.
  unfold handleCDNRequest, tryCatch, andThen, caches_match, fetch.
  by rewrite Hmiss, Hnet, Hok.
Qed.

Lemma CDN_miss_offline request w :
  storage_match request (caches w) = None ->
  net request = None ->
  handleCDNRequest net request w =
  (if includes (Request.url request) "tailwindcss.com"
   then Fulfilled (Some (Response.create "/* Tailwind CSS fallback */"
                                         [("Content-Type", "text/css")]))
   else Rejected (TypeError "Failed to fetch"),
   emit (NetFetch request) w).
Proof.
  intros Hmiss Hnet.
  unfold handleCDNRequest, tryCatch, andThen, caches_match, fetch.
  rewrite Hmiss, Hnet.
  by destruct (includes (Request.url request) "tailwindcss.com").
Qed.

(** Routing of the [fetch] listener. *)
Lemma onfetch_same_origin request :
  Request.method request = "GET" ->
  URL_origin (Request.url request) = origin ->
  onfetch origin net request = Some (handleSameOriginRequest origin net request).
Proof.
  intros Hget Horigin. unfold onfetch.
  by rewrite Hget, Horigin, !String.eqb_refl.
Qed.

Lemma onfetch_CDN request :
  Request.method request = "GET" ->
  URL_origin (Request.url request) <> origin ->
  includes (URL_origin (Request.url request)) "cdn.tailwindcss.com"
  || includes (URL_origin (Request.url request)) "fonts.googleapis.com"
  || includes (URL_origin (Request.url request)) "cdnjs.cloudflare.com" = true ->
  onfetch origin net request = Some (handleCDNRequest net request).
Proof.
  intros Hget Horigin Hcdn. unfold onfetch. rewrite Hget, Hcdn. simpl.
  by destruct (String.eqb_spec (URL_origin (Request.url request)) origin).
Qed.

End Handlers.

Lemma fetchCount_app tr1 tr2 :
  fetchCount (tr1 ++ tr2) = fetchCount tr1 + fetchCount tr2.
Proof. unfold fetchCount. by rewrite List.filter_app, length_app. Qed.

Lemma storesOkOnly_refl w : storesOkOnly w w.
Proof. split; intros; by left. Qed.

Lemma storesOkOnly_fetch request w : storesOkOnly w (emit (NetFetch request) w).
Proof.
  split.
  - intros name item Hin. by left.
  - intros name href r. simpl. rewrite in_app_iff.
    intros [H|[H|[]]]; [by left|discriminate].
Qed.

Lemma storesOkOnly_put cache request r w :
  Response.ok r = true ->
  storesOkOnly w
    (mkWorld (storage_alter (Cache_put request r) cache
                            (storage_open cache (caches w)))
             (trace w ++ [NetFetch request; CachePut cache (Request.url request) r])).
Proof.
  intros Hok. split.
  - intros name item Hin. destruct w as [cs tr].
    apply (cached_put _ _ _ _ _ _ tr) in Hin as [Hin | ->]; [by left|by right].
  - intros name href r'. simpl. rewrite in_app_iff.
    intros [H|[H|[H|[]]]]; [by left|discriminate|].
    injection H as <- <- <-. by right.
Qed.

Lemma storesOkOnly_refused cache request w :
  storesOkOnly w
    (mkWorld (storage_open cache (caches w))
             (trace w ++ [NetFetch request;
                          ConsoleError "Service Worker unhandled rejection:"])).
Proof.
  split.
  - intros name item Hin. destruct w as [cs tr].
    left. by apply (cached_open _ _ _ _ tr) in Hin.
  - intros name href r'. simpl. rewrite in_app_iff.
    intros [H|[H|[H|[]]]]; [by left|discriminate|discriminate].
Qed.

Lemma entryFor_open name name' q cs tr tr' :
  entryFor name' q (mkWorld (storage_open name cs) tr') =
  entryFor name' q (mkWorld cs tr).
Proof.
  unfold entryFor. cbn [caches]. rewrite storage_get_open.
  destruct (storage_get name' cs); [done|].
  destruct (String.eqb name name'); [|done].
  simpl. unfold Cache_match. by destruct (String.eqb (Request.method q) "GET").
Qed.

(** ** Same-origin requests *)

(** C1, as the code has it. For every same-origin GET request the fetch
    listener answers network first. An ok network response is returned; a
    copy is stored in the dynamic generation for the request when
    [cache.put] accepts it, and nothing is stored when it does not (a
    response of status 206 or with [Vary: *]). When the network fetch fails
    the answer is what [caches.match] finds for the request, the first
    matching item over all cache generations in creation order, and when
    nothing matches it is what the caches hold for [/offline.html]: the
    offline page if it was cached, no response otherwise. The fallback
    stores nothing. *)
Theorem sameOrigin_network_first origin net request w :
  Request.method request = "GET" ->
  URL_origin (Request.url request) = origin ->
  exists respond,
    onfetch origin net request = Some respond /\
    (forall r, net request = Some r -> Response.ok r = true ->
       fst (respond w) = Fulfilled (Some r) /\
       (putAccepts request r = true ->
        entryFor DYNAMIC_CACHE request (snd (respond w)) = Some r /\
        caches (snd (respond w)) =
          storage_alter (Cache_put request r) DYNAMIC_CACHE
                        (storage_open DYNAMIC_CACHE (caches w)) /\
        trace (snd (respond w)) =
          trace w ++ [NetFetch request;
                      CachePut DYNAMIC_CACHE (Request.url request) r]) /\
       (putAccepts request r = false ->
        caches (snd (respond w)) = storage_open DYNAMIC_CACHE (caches w) /\
        forall name q, entryFor name q (snd (respond w)) = entryFor name q w)) /\
    (net request = None ->
       fst (respond w) =
         Fulfilled
           match storage_match request (caches w) with
           | Some r => Some r
           | None => storage_match (GET (origin +:+ "/offline.html")) (caches w)
           end /\
       snd (respond w) = emit (NetFetch request) w).
Proof.
  intros Hget Horigin. eexists. split; [by apply onfetch_same_origin|]. split.
  - intros r Hnet Hok. destruct (putAccepts request r) eqn:Hacc.
    + rewrite (sameOrigin_online_ok _ _ _ _ _ Hnet Hok Hacc). cbn [fst snd].
      split; [done|]. split; [|done]. intros _.
      split; [by apply entryFor_put|done].
    + rewrite (sameOrigin_online_refused _ _ _ _ _ Hnet Hok Hacc). cbn [fst snd].
      split; [done|]. split; [done|]. intros _. split; [done|].
      intros name q. destruct w as [cs tr]. apply entryFor_open.
  - intros Hnet. by rewrite (sameOrigin_offline _ _ _ _ Hnet).
Qed.

Lemma sameOrigin_network_first_witness :
  (exists respond,
     onfetch site_origin (online "v2") indexPage = Some respond /\
     fst (respond installed) =
       Fulfilled (Some (page "v2 https://propgrid.com/index.html")) /\
     entryFor DYNAMIC_CACHE indexPage (snd (respond installed)) =
       Some (page "v2 https://propgrid.com/index.html")) /\
  (exists respond,
     onfetch site_origin partially indexPage = Some respond /\
     fst (respond installed) = Fulfilled (Some partialContent) /\
     entryFor DYNAMIC_CACHE indexPage (snd (respond installed)) = None) /\
  (exists respond,
     onfetch site_origin offline aboutPage = Some respond /\
     storage_match aboutPage (caches withOfflinePage) = None /\
     fst (respond withOfflinePage) =
       Fulfilled (Some (page "v1 https://propgrid.com/offline.html"))).
Proof.
  split; [|split].
  - destruct (sameOrigin_network_first site_origin (online "v2") indexPage installed)
      as (respond & Hroute & Hon & _); [reflexivity|reflexivity|].
    destruct (Hon (page "v2 https://propgrid.com/index.html"))
      as (Hres & Hstored & _); [reflexivity|reflexivity|].
    destruct Hstored as (Hentry & _); [reflexivity|].
    exists respond. split; [exact Hroute|]. split; [exact Hres|exact Hentry].
  - destruct (sameOrigin_network_first site_origin partially indexPage installed)
      as (respond & Hroute & Hon & _); [reflexivity|reflexivity|].
    destruct (Hon partialContent) as (Hres & _ & Hrefused); [reflexivity|reflexivity|].
    destruct Hrefused as (_ & Hentries); [reflexivity|].
    exists respond. split; [exact Hroute|]. split; [exact Hres|].
    rewrite Hentries. reflexivity.
  - destruct (sameOrigin_network_first site_origin offline aboutPage withOfflinePage)
      as (respond & Hroute & _ & Hoff); [reflexivity|reflexivity|].
    destruct Hoff as [Hres _]; [reflexivity|].
    exists respond. split; [exact Hroute|]. split; [vm_compute; reflexivity|].
    rewrite Hres. vm_compute. reflexivity.
Defined.

(** C1, as stated, fails. With version 1.0.0 installed and no network, a
    same-origin page that no cache holds gets no response at all, since the
    offline page is not in the precache manifest; the index page, absent
    from the dynamic generation, is answered from the static generation
    although the offline page is cached; and an ok network response of
    status 206 is returned without a copy being stored. *)
Lemma sameOrigin_offline_without_offline_page :
  (storage_match aboutPage (caches installed) = None /\
   offline aboutPage = None /\
   exists respond,
     onfetch site_origin offline aboutPage = Some respond /\
     fst (respond installed) = Fulfilled None) /\
  (entryFor DYNAMIC_CACHE indexPage withOfflinePage = None /\
   entryFor DYNAMIC_CACHE offlinePage withOfflinePage =
     Some (page "v1 https://propgrid.com/offline.html") /\
   exists respond,
     onfetch site_origin offline indexPage = Some respond /\
     fst (respond withOfflinePage) =
       Fulfilled (Some (page "v1 https://propgrid.com/index.html"))) /\
  (partially indexPage = Some partialContent /\
   Response.ok partialContent = true /\
   exists respond,
     onfetch site_origin partially indexPage = Some respond /\
     fst (respond installed) = Fulfilled (Some partialContent) /\
     entryFor DYNAMIC_CACHE indexPage (snd (respond installed)) = None).
Proof.
  split; [|split].
  - split; [by vm_compute|]. split; [done|].
    eexists. split; [reflexivity|]. by vm_compute.
  - split; [by vm_compute|]. split; [by vm_compute|].
    eexists. split; [reflexivity|]. by vm_compute.
  - split; [done|]. split; [done|].
    eexists. split; [reflexivity|]. split; by vm_compute.
Qed.

(** C8, as the code has it. A same-origin request answered by the network
    with an ok response that [cache.put] accepts is answered, on the next
    fetch of the same request without network, with that stored response,
    unless a cache generation created before the dynamic one holds a
    matching item: then the answer is the item of the first such
    generation. *)
Theorem sameOrigin_round_trip origin net1 net2 request r w :
  net1 request = Some r -> Response.ok r = true ->
  putAccepts request r = true ->
  net2 request = None ->
  fst (handleSameOriginRequest origin net2 request
         (snd (handleSameOriginRequest origin net1 request w)))
  = Fulfilled
      (Some (default r (storage_match request
                          (storage_before DYNAMIC_CACHE (caches w))))).
Proof.
  intros Hnet1 Hok Hacc Hnet2.
  rewrite (sameOrigin_online_ok _ _ _ _ _ Hnet1 Hok Hacc).
  rewrite (sameOrigin_offline _ _ _ _ Hnet2). cbn [fst snd caches].
  by rewrite storage_match_put.
Qed.

Lemma sameOrigin_round_trip_witness :
  storage_match aboutPage (storage_before DYNAMIC_CACHE (caches installed)) = None /\
  fst (handleSameOriginRequest site_origin offline aboutPage
         (snd (handleSameOriginRequest site_origin (online "v2") aboutPage installed)))
  = Fulfilled (Some (page "v2 https://propgrid.com/about.html")).
Proof.
  split; [vm_compute; reflexivity|].
  rewrite (sameOrigin_round_trip site_origin (online "v2") offline aboutPage
             (page "v2 https://propgrid.com/about.html") installed);
    [|reflexivity|reflexivity|reflexivity|reflexivity].
  vm_compute. reflexivity.
Defined.

(** C8, as stated, fails. The index page is in the precache manifest: after
    it was fetched again from servers that had moved on to [v2], and stored
    in the dynamic generation, a fetch without network returns the [v1] page
    kept in the static generation, which [caches.match] searches first. *)
Lemma sameOrigin_round_trip_shadowed :
  online "v2" indexPage = Some (page "v2 https://propgrid.com/index.html") /\
  Response.ok (page "v2 https://propgrid.com/index.html") = true /\
  entryFor DYNAMIC_CACHE indexPage revisited =
    Some (page "v2 https://propgrid.com/index.html") /\
  fst (handleSameOriginRequest site_origin offline indexPage revisited) =
    Fulfilled (Some (page "v1 https://propgrid.com/index.html")) /\
  page "v1 https://propgrid.com/index.html" <> page "v2 https://propgrid.com/index.html".
Proof.
  split; [done|]. split; [done|]. split; [by vm_compute|]. split; [by vm_compute|].
  discriminate.
Qed.

(** ** CDN requests *)

(** C5, as the code has it. For every GET request to a recognized CDN
    origin for which [caches.match] finds a cached response, the fetch
    listener returns that response and fetches nothing; on a cache miss it
    performs one network fetch, and an ok network response is returned, and
    stored in the static generation when [cache.put] accepts it. When it
    does not (a response of status 206 or with [Vary: *]) nothing is
    stored. *)
Theorem CDN_cache_first origin net request w :
  Request.method request = "GET" ->
  URL_origin (Request.url request) <> origin ->
  includes (URL_origin (Request.url request)) "cdn.tailwindcss.com"
  || includes (URL_origin (Request.url request)) "fonts.googleapis.com"
  || includes (URL_origin (Request.url request)) "cdnjs.cloudflare.com" = true ->
  exists respond,
    onfetch origin net request = Some respond /\
    (forall c, storage_match request (caches w) = Some c ->
       respond w = (Fulfilled (Some c), w) /\
       fetchCount (trace (snd (respond w))) = fetchCount (trace w)) /\
    (storage_match request (caches w) = None ->
       fetchCount (trace (snd (respond w))) = S (fetchCount (trace w)) /\
       forall r, net request = Some r -> Response.ok r = true ->
         fst (respond w) = Fulfilled (Some r) /\
         (putAccepts request r = true ->
          entryFor STATIC_CACHE request (snd (respond w)) = Some r /\
          caches (snd (respond w)) =
            storage_alter (Cache_put request r) STATIC_CACHE
                          (storage_open STATIC_CACHE (caches w)) /\
          trace (snd (respond w)) =
            trace w ++ [NetFetch request;
                        CachePut STATIC_CACHE (Request.url request) r]) /\
         (putAccepts request r = false ->
          caches (snd (respond w)) = storage_open STATIC_CACHE (caches w) /\
          forall name q, entryFor name q (snd (respond w)) = entryFor name q w)).
Proof.
  intros Hget Horigin Hcdn. eexists. split; [by apply onfetch_CDN|]. split.
  - intros c Hhit. by rewrite (CDN_cached _ _ _ _ Hhit).
  - intros Hmiss. split.
    + destruct (net request) as [r|] eqn:Hnet.
      * destruct (Response.ok r) eqn:Hok.
        -- destruct (putAccepts request r) eqn:Hacc.
           ++ rewrite (CDN_miss_ok _ _ _ _ Hmiss Hnet Hok Hacc). simpl.
              rewrite fetchCount_app. unfold fetchCount; simpl. lia.
           ++ rewrite (CDN_miss_refused _ _ _ _ Hmiss Hnet Hok Hacc). simpl.
              rewrite fetchCount_app. unfold fetchCount; simpl. lia.
        -- rewrite (CDN_miss_not_ok _ _ _ _ Hmiss Hnet Hok). simpl.
           rewrite fetchCount_app. unfold fetchCount; simpl. lia.
      * rewrite (CDN_miss_offline _ _ _ Hmiss Hnet). simpl.
        rewrite fetchCount_app. unfold fetchCount; simpl. lia.
    + intros r Hnet Hok. destruct (putAccepts request r) eqn:Hacc.
      * rewrite (CDN_miss_ok _ _ _ _ Hmiss Hnet Hok Hacc). cbn [fst snd].
        split; [done|]. split; [|done]. intros _.
        split; [by apply entryFor_put|done].
      * rewrite (CDN_miss_refused _ _ _ _ Hmiss Hnet Hok Hacc). cbn [fst snd].
        split; [done|]. split; [done|]. intros _. split; [done|].
        intros name q. destruct w as [cs tr]. apply entryFor_open.
Qed.

Lemma CDN_cache_first_witness :
  (exists respond,
     onfetch site_origin (online "v2") tailwind = Some respond /\
     respond installed =
       (Fulfilled (Some (page "v1 https://cdn.tailwindcss.com/")), installed) /\
     fetchCount (trace (snd (respond installed))) = fetchCount (trace installed)) /\
  (exists respond,
     onfetch site_origin (online "v2") robotoFont = Some respond /\
     fetchCount (trace (snd (respond fresh))) = 1 /\
     entryFor STATIC_CACHE robotoFont (snd (respond fresh)) =
       Some (page ("v2 " +:+ Request.url robotoFont))).
Proof.
  split.
  - destruct (CDN_cache_first site_origin (online "v2") tailwind installed)
      as (respond & Hroute & Hhit & _); [reflexivity|discriminate|reflexivity|].
    destruct (Hhit (page "v1 https://cdn.tailwindcss.com/")) as [Hres Hcount];
      [vm_compute; reflexivity|].
    exists respond. split; [exact Hroute|]. split; [exact Hres|exact Hcount].
  - destruct (CDN_cache_first site_origin (online "v2") robotoFont fresh)
      as (respond & Hroute & _ & Hmiss); [reflexivity|discriminate|reflexivity|].
    destruct Hmiss as [Hcount Hstore]; [reflexivity|].
    destruct (Hstore (page ("v2 " +:+ Request.url robotoFont)))
      as (_ & Hstored & _); [reflexivity|reflexivity|].
    destruct Hstored as (Hentry & _); [reflexivity|].
    exists respond. split; [exact Hroute|]. split; [exact Hcount|exact Hentry].
Defined.

(** C5, as stated, fails. On a cache miss, an ok network response of
    status 206 is returned by the CDN handler, but [cache.put] refuses it:
    the static generation, created by the handler, stays empty. *)
Lemma CDN_partial_response_not_stored :
  storage_match robotoFont (caches fresh) = None /\
  partially robotoFont = Some partialContent /\
  Response.ok partialContent = true /\
  exists respond,
    onfetch site_origin partially robotoFont = Some respond /\
    fst (respond fresh) = Fulfilled (Some partialContent) /\
    caches (snd (respond fresh)) = [(STATIC_CACHE, [])] /\
    entryFor STATIC_CACHE robotoFont (snd (respond fresh)) = None.
Proof.
  split; [done|]. split; [done|]. split; [done|].
  eexists. split; [reflexivity|]. split; [by vm_compute|]. split; by vm_compute.
Qed.

Lemma append_cons a p s : String a p +:+ s = String a (p +:+ s).
Proof. reflexivity. Qed.

Lemma prefix_spec p s :
  String.prefix p s = true <-> exists post, s = p +:+ post.
Proof.
  revert s. induction p as [|a p IH]; intros s.
  - split; [intros _; by exists s|]. intros _. by destruct s.
  - destruct s as [|b s]; simpl.
    { split; [done|by intros [post ?]]. }
    destruct (ascii_dec a b) as [->|Hab].
    + rewrite IH. split; intros [post Hpost]; exists post.
      * by rewrite append_cons, Hpost.
      * rewrite append_cons in Hpost. by injection Hpost.
    + split; [done|]. intros [post Hpost]. rewrite append_cons in Hpost. congruence.
Qed.

(** [includes] is the substring test. *)
Lemma includes_spec s sub :
  includes s sub = true <-> exists pre post, s = pre +:+ sub +:+ post.
Proof.
  induction s as [|a s IH].
  - change (includes "" sub) with (String.prefix sub "" || false).
    rewrite orb_false_r, prefix_spec. split.
    + intros [post Hpost]. by exists "", post.
    + intros (pre & post & Hs). destruct pre; [by exists post|done].
  - change (includes (String a s) sub)
      with (String.prefix sub (String a s) || includes s sub).
    rewrite orb_true_iff, prefix_spec, IH. split.
    + intros [[post Hpost]|(pre & post & Hs)].
      * by exists "", post.
      * exists (String a pre), post. by rewrite append_cons, Hs.
    + intros (pre & post & Hs). destruct pre as [|b pre].
      * left. by exists post.
      * right. rewrite append_cons in Hs. injection Hs as _ Hs. by exists pre, post.
Qed.

(** C6, as the code has it. When a recognized CDN request finds no cached
    response and its network fetch fails, the fetch listener answers a
    request whose URL contains the text [tailwindcss.com], wherever in the
    URL, with a synthetic stylesheet of content type text/css with a
    placeholder comment as body, and rejects with the error of the failed
    fetch when the URL does not contain it. *)
Theorem CDN_total_failure origin net request w :
  Request.method request = "GET" ->
  URL_origin (Request.url request) <> origin ->
  includes (URL_origin (Request.url request)) "cdn.tailwindcss.com"
  || includes (URL_origin (Request.url request)) "fonts.googleapis.com"
  || includes (URL_origin (Request.url request)) "cdnjs.cloudflare.com" = true ->
  storage_match request (caches w) = None ->
  net request = None ->
  exists respond,
    onfetch origin net request = Some respond /\
    ((exists pre post, Request.url request = pre +:+ "tailwindcss.com" +:+ post) ->
     exists r,
       fst (respond w) = Fulfilled (Some r) /\
       Response.header "Content-Type" (Response.headers r) = Some "text/css" /\
       Response.body r = "/* Tailwind CSS fallback */" /\
       Response.ok r = true) /\
    (~ (exists pre post, Request.url request = pre +:+ "tailwindcss.com" +:+ post) ->
     fst (respond w) = Rejected (TypeError "Failed to fetch")) /\
    caches (snd (respond w)) = caches w.
Proof.
  intros Hget Horigin Hcdn Hmiss Hnet.
  eexists. split; [by apply onfetch_CDN|].
  rewrite (CDN_miss_offline _ _ _ Hmiss Hnet). simpl.
  split; [|split; [|done]].
  - intros Hsub. apply includes_spec in Hsub as ->.
    eexists. split; [reflexivity|]. done.
  - intros Hsub.
    destruct (includes (Request.url request) "tailwindcss.com") eqn:E; [|done].
    by apply includes_spec in E.
Qed.

Lemma CDN_total_failure_witness :
  (exists respond,
     onfetch site_origin offline tailwind = Some respond /\
     exists r,
       fst (respond fresh) = Fulfilled (Some r) /\
       Response.header "Content-Type" (Response.headers r) = Some "text/css" /\
       Response.body r = "/* Tailwind CSS fallback */") /\
  (exists respond,
     onfetch site_origin offline fontAwesome = Some respond /\
     fst (respond fresh) = Rejected (TypeError "Failed to fetch")).
Proof.
  split.
  - destruct (CDN_total_failure site_origin offline tailwind fresh)
      as (respond & Hroute & Hcss & _);
      [reflexivity|discriminate|reflexivity|reflexivity|reflexivity|].
    destruct Hcss as (r & Hres & Htype & Hbody & _).
    { by exists "https://cdn.", "/". }
    exists respond. split; [exact Hroute|].
    exists r. split; [exact Hres|]. split; [exact Htype|exact Hbody].
  - destruct (CDN_total_failure site_origin offline fontAwesome fresh)
      as (respond & Hroute & _ & Hother & _);
      [reflexivity|discriminate|reflexivity|reflexivity|reflexivity|].
    exists respond. split; [exact Hroute|]. apply Hother.
    intros Hsub. apply includes_spec in Hsub. discriminate Hsub.
Defined.

(** C6, as stated, fails. A stylesheet of cdnjs, a recognized CDN that is
    not the CSS framework's, whose URL mentions [tailwindcss.com] in its
    query, is answered with the synthetic stylesheet when cache and network
    fail; the failure is not propagated. *)
Lemma CDN_fallback_for_other_CDN :
  URL_origin (Request.url referredStyle) = "https://cdnjs.cloudflare.com" /\
  includes (URL_origin (Request.url referredStyle)) "tailwindcss.com" = false /\
  storage_match referredStyle (caches fresh) = None /\
  offline referredStyle = None /\
  exists respond,
    onfetch site_origin offline referredStyle = Some respond /\
    fst (respond fresh) =
      Fulfilled (Some (Response.mk 200 "" [("Content-Type", "text/css")]
                                   "/* Tailwind CSS fallback */")) /\
    forall e, fst (respond fresh) <> Rejected e.
Proof.
  split; [reflexivity|]. split; [reflexivity|]. split; [reflexivity|].
  split; [reflexivity|]. eexists. split; [reflexivity|].
  split; [reflexivity|]. intros e. discriminate.
Qed.

(** ** Only ok responses are cached *)

Section OkOnly.

Variable origin : string.
Variable net : Request.t -> option Response.t.

Lemma sameOrigin_storesOkOnly request w :
  storesOkOnly w (snd (handleSameOriginRequest origin net request w)).
Proof.
  destruct (net request) as [r|] eqn:Hnet.
  - destruct (Response.ok r) eqn:Hok.
    + destruct (putAccepts request r) eqn:Hacc.
      * rewrite (sameOrigin_online_ok _ _ _ _ _ Hnet Hok Hacc).
        by apply storesOkOnly_put.
      * rewrite (sameOrigin_online_refused _ _ _ _ _ Hnet Hok Hacc).
        apply storesOkOnly_refused.
    + rewrite (sameOrigin_online_not_ok _ _ _ _ _ Hnet Hok).
      apply storesOkOnly_fetch.
  - rewrite (sameOrigin_offline _ _ _ _ Hnet). apply storesOkOnly_fetch.
Qed.

Lemma CDN_storesOkOnly request w :
  storesOkOnly w (snd (handleCDNRequest net request w)).
Proof.
  destruct (storage_match request (caches w)) as [c|] eqn:Hmatch.
  { rewrite (CDN_cached _ _ _ _ Hmatch). apply storesOkOnly_refl. }
  destruct (net request) as [r|] eqn:Hnet.
  - destruct (Response.ok r) eqn:Hok.
    + destruct (putAccepts request r) eqn:Hacc.
      * rewrite (CDN_miss_ok _ _ _ _ Hmatch Hnet Hok Hacc). by apply storesOkOnly_put.
      * rewrite (CDN_miss_refused _ _ _ _ Hmatch Hnet Hok Hacc).
        apply storesOkOnly_refused.
    + rewrite (CDN_miss_not_ok _ _ _ _ Hmatch Hnet Hok). apply storesOkOnly_fetch.
  - rewrite (CDN_miss_offline _ _ _ Hmatch Hnet). apply storesOkOnly_fetch.
Qed.

End OkOnly.

(** C10. Every cache write of the same-origin and CDN handlers stores a
    response whose ok flag is true: after either handler every pair a cache
    holds is one it held before or has an ok response, and every
    [cache.put] traced is of an ok response. A network response that is not
    ok is returned to the caller and leaves the cache storage as it was. *)
Theorem fetch_handlers_cache_ok_only origin net request w :
  storesOkOnly w (snd (handleSameOriginRequest origin net request w)) /\
  storesOkOnly w (snd (handleCDNRequest net request w)) /\
  (forall r, net request = Some r -> Response.ok r = false ->
     fst (handleSameOriginRequest origin net request w) = Fulfilled (Some r) /\
     caches (snd (handleSameOriginRequest origin net request w)) = caches w) /\
  (forall r, net request = Some r -> Response.ok r = false ->
     storage_match request (caches w) = None ->
     fst (handleCDNRequest net request w) = Fulfilled (Some r) /\
     caches (snd (handleCDNRequest net request w)) = caches w).
Proof.
  split; [apply sameOrigin_storesOkOnly|]. split; [apply CDN_storesOkOnly|]. split.
  - intros r Hnet Hok. by rewrite (sameOrigin_online_not_ok _ _ _ _ _ Hnet Hok).
  - intros r Hnet Hok Hmiss. by rewrite (CDN_miss_not_ok _ _ _ _ Hmiss Hnet Hok).
Qed.

Lemma fetch_handlers_cache_ok_only_witness :
  (fst (handleSameOriginRequest site_origin failing indexPage revisited) =
     Fulfilled (Some (Response.mk 500 "Internal Server Error" [] "")) /\
   caches (snd (handleSameOriginRequest site_origin failing indexPage revisited)) =
     caches revisited) /\
  (fst (handleCDNRequest failing fontAwesome fresh) =
     Fulfilled (Some (Response.mk 500 "Internal Server Error" [] "")) /\
   caches (snd (handleCDNRequest failing fontAwesome fresh)) = caches fresh).
Proof.
  destruct (fetch_handlers_cache_ok_only site_origin failing indexPage revisited)
    as (_ & _ & Hsame & _).
  destruct (fetch_handlers_cache_ok_only site_origin failing fontAwesome fresh)
    as (_ & _ & _ & Hcdn).
  split.
  - apply Hsame; reflexivity.
  - apply Hcdn; reflexivity.
Defined.

(** ** Installation *)

Lemma append_assoc (a b c : string) : (a +:+ b) +:+ c = a +:+ b +:+ c.
Proof. induction a as [|x a IH]; [done|]. by rewrite !append_cons, IH. Qed.

Lemma isHTTP_append href rest : isHTTP href = true -> isHTTP (href +:+ rest) = true.
Proof.
  unfold isHTTP, scheme_of.
  destruct (String.prefix "https://" href) eqn:Hs.
  - intros _. apply prefix_spec in Hs as [post ->].
    assert (String.prefix "https://" (("https://" +:+ post) +:+ rest) = true) as ->;
      [|done].
    apply prefix_spec. exists (post +:+ rest). by rewrite append_assoc.
  - destruct (String.prefix "http://" href) eqn:Hp; [|done].
    intros _. apply prefix_spec in Hp as [post ->].
    assert (String.prefix "http://" (("http://" +:+ post) +:+ rest) = true) as ->.
    { apply prefix_spec. exists (post +:+ rest). by rewrite append_assoc. }
    by destruct (String.prefix "https://" _).
Qed.

(** Served from an http(s) origin, the manifest has http(s) URLs only. *)
Lemma manifest_isHTTP origin :
  isHTTP origin = true ->
  Forall (fun href => isHTTP href = true) (manifestURLs origin).
Proof.
  intros Horigin.
  change (manifestURLs origin) with
    [origin +:+ "/"; origin +:+ "/index.html"; origin +:+ "/script.js";
     resolveURL origin "https://cdn.tailwindcss.com";
     resolveURL origin
       "https://fonts.googleapis.com/css2?family=Inter:wght@400;500;600;700&display=swap";
     resolveURL origin
       "https://cdnjs.cloudflare.com/ajax/libs/font-awesome/6.4.0/css/all.min.css"].
  repeat (apply Forall_cons; split; [by apply isHTTP_append|]).
  repeat (apply Forall_cons; split; [reflexivity|]).
  constructor.
Qed.

Section Install.

Variable origin : string.
Variable net : Request.t -> option Response.t.

(** [addAll] sends every request, whatever comes back. *)
Lemma startFetches_run hrefs : forall w,
  Forall (fun href => isHTTP href = true) hrefs ->
  startFetches net (map GET hrefs) w =
  (Fulfilled (map (fun href => net (GET href)) hrefs),
   mkWorld (caches w) (trace w ++ map (fun href => NetFetch (GET href)) hrefs)).
Proof.
  induction hrefs as [|href hrefs IH]; intros w Hhttp; simpl.
  - destruct w. unfold resolve; simpl. by rewrite app_nil_r.
  - inversion Hhttp as [|? ? Hhref Hrest]; subst. rewrite Hhref.
    unfold andThen, send at 1. rewrite (IH _ Hrest).
    unfold resolve, emit; simpl. by rewrite <- app_assoc.
Qed.

End Install.

Lemma filter_keep_all {A} (P : A -> bool) (l : list A) :
  existsb P l = false -> List.filter (fun x => negb (P x)) l = l.
Proof.
  induction l as [|x l IH]; simpl; [done|].
  intros H. apply orb_false_iff in H as [Hx Hl]. rewrite Hx. simpl. by rewrite IH.
Qed.

Lemma filter_twice_neg {A} (P Q : A -> bool) (l : list A) :
  List.filter (fun x => negb (Q x)) (List.filter (fun x => negb (P x)) l) =
  List.filter (fun x => negb (P x || Q x)) l.
Proof.
  induction l as [|x l IH]; simpl; [done|].
  destruct (P x); simpl; [done|]. destruct (Q x); simpl; by rewrite IH.
Qed.

(** A batch of puts: fails on a request that matches an item added
    earlier in the batch, and else replaces the items the requests match by
    the new pairs. *)
Lemma batchPut_spec (entries : Cache) : forall added base : Cache,
  batchPut entries added (base ++ added) =
  if batchDistinct entries added
  then Some (List.filter
               (fun item => negb (existsb (fun e => matchesCached e.1 item) entries))
               base
             ++ added ++ entries)
  else None.
Proof.
  induction entries as [|[q r] entries IH]; intros added base; simpl.
  - rewrite app_nil_r. by rewrite (filter_keep_all (fun _ => false)) by by induction base.
  - destruct (existsb (matchesCached q) added) eqn:E; simpl; [done|].
    unfold Cache_put. rewrite List.filter_app, (filter_keep_all _ _ E).
    rewrite <- app_assoc. rewrite IH.
    destruct (batchDistinct entries (added ++ [(q, r)])); [|done].
    rewrite filter_twice_neg. by rewrite <- app_assoc.
Qed.

Lemma varyStar_fields (r : Response.t) :
  Response.varyStar r = false ->
  Forall (fun f => String.eqb f "*" = false) (Response.varyFields r).
Proof.
  unfold Response.varyStar.
  induction (Response.varyFields r) as [|f fs IH]; simpl; [constructor|].
  intros H. apply orb_false_iff in H as [Hf Hfs]. constructor; auto.
Qed.

(** Between requests without headers, matching is equality of the URLs up
    to their fragments. *)
Lemma matchesCached_GET href href' r :
  Response.varyStar r = false ->
  matchesCached (GET href) (GET href', r) =
  String.eqb (stripFragment href) (stripFragment href').
Proof.
  intros Hstar. unfold matchesCached. cbn [fst snd].
  change (Request.method (GET href')) with "GET".
  change (Request.url (GET href)) with href.
  change (Request.url (GET href')) with href'.
  change (Request.headers (GET href')) with (Request.headers (GET href)).
  rewrite String.eqb_refl. cbn [andb].
  apply varyStar_fields in Hstar.
  induction Hstar as [|f fs Hf _ IH]; cbn [forallb]; [by rewrite andb_true_r|].
  rewrite Hf. rewrite bool_decide_eq_true_2 by done. cbn [negb andb]. apply IH.
Qed.

Lemma addAccepts_inv r :
  addAccepts r = true ->
  Response.ok r = true /\ Response.status r <> 206 /\ Response.varyStar r = false.
Proof.
  unfold addAccepts. rewrite !andb_true_iff, !negb_true_iff.
  intros [[Hok Hstatus] Hstar]. split; [done|]. split; [|done].
  by apply Nat.eqb_neq.
Qed.

Lemma addable_inv net href :
  addable net href = true ->
  isHTTP href = true /\ exists r, net (GET href) = Some r /\ addAccepts r = true.
Proof.
  unfold addable. rewrite andb_true_iff. intros [Hhttp Hnet]. split; [done|].
  destruct (net (GET href)) as [r|]; [by exists r|done].
Qed.

Section Precache.

Variable net : Request.t -> option Response.t.

Lemma precache_app hrefs1 hrefs2 :
  precache net (hrefs1 ++ hrefs2) = precache net hrefs1 ++ precache net hrefs2.
Proof.
  induction hrefs1 as [|href hrefs1 IH]; simpl; [done|].
  destruct (net (GET href)); simpl; by rewrite IH.
Qed.

Lemma precache_requests hrefs :
  Forall (fun href => addable net href = true) hrefs ->
  map fst (precache net hrefs) = map GET hrefs.
Proof.
  induction 1 as [|href hrefs Hhref _ IH]; simpl; [done|].
  destruct (addable_inv _ _ Hhref) as (_ & r & -> & _). simpl. by rewrite IH.
Qed.

(** When every response is accepted, [addAll] is to store the precache. *)
Lemma accepted_all hrefs :
  Forall (fun href => addable net href = true) hrefs ->
  accepted (map GET hrefs) (map (fun href => net (GET href)) hrefs) =
  Some (precache net hrefs).
Proof.
  induction 1 as [|href hrefs Hhref _ IH]; simpl; [done|].
  destruct (addable_inv _ _ Hhref) as (_ & r & -> & ->). by rewrite IH.
Qed.

(** When a fetch fails or a response is refused, it is to store nothing. *)
Lemma accepted_none hrefs :
  Forall (fun href => isHTTP href = true) hrefs ->
  Exists (fun href => addable net href = false) hrefs ->
  accepted (map GET hrefs) (map (fun href => net (GET href)) hrefs) = None.
Proof.
  induction 1 as [|href hrefs Hhttp _ IH]; intros Hex; [inversion Hex|].
  simpl. destruct (net (GET href)) as [r|] eqn:Hnet; [|done].
  destruct (addAccepts r) eqn:Hacc; [|done].
  rewrite IH; [done|].
  inversion Hex as [? ? Hhref|]; subst; [|done].
  unfold addable in Hhref. by rewrite Hhttp, Hnet, Hacc in Hhref.
Qed.

Lemma precache_no_match href hrefs :
  Forall (fun href => addable net href = true) hrefs ->
  stripFragment href ∉ map stripFragment hrefs ->
  existsb (matchesCached (GET href)) (precache net hrefs) = false.
Proof.
  induction 1 as [|href' hrefs Hhref' _ IH]; simpl; [done|].
  intros Hnotin. apply not_elem_of_cons in Hnotin as [Hne Hnotin].
  destruct (addable_inv _ _ Hhref') as (_ & r & -> & Hacc).
  destruct (addAccepts_inv _ Hacc) as (_ & _ & Hstar).
  simpl. rewrite (matchesCached_GET _ _ _ Hstar), IH by done.
  by destruct (String.eqb_spec (stripFragment href) (stripFragment href')).
Qed.

(** Distinct URLs make a batch that does not fail. *)
Lemma precache_distinct hrefs : forall earlier,
  Forall (fun href => addable net href = true) earlier ->
  Forall (fun href => addable net href = true) hrefs ->
  NoDup (map stripFragment (earlier ++ hrefs)) ->
  batchDistinct (precache net hrefs) (precache net earlier) = true.
Proof.
  induction hrefs as [|href hrefs IH]; intros earlier Hearlier Hhrefs Hnodup; [done|].
  inversion Hhrefs as [|? ? Hhref Hrest]; subst.
  simpl. destruct (addable_inv _ _ Hhref) as (_ & r & Hnet & _). rewrite Hnet.
  simpl. rewrite precache_no_match; [|done|].
  - simpl.
    assert (precache net earlier ++ [(GET href, r)] = precache net (earlier ++ [href]))
      as ->.
    { rewrite precache_app. simpl. by rewrite Hnet. }
    apply IH; [|done|].
    + apply Forall_app. split; [done|]. by constructor.
    + by rewrite <- app_assoc.
  - rewrite map_app in Hnodup. apply NoDup_app in Hnodup as (_ & Hdisj & _).
    intros Hin. apply (Hdisj _ Hin). simpl. left.
Qed.

(** Every URL of the batch finds its own response in the precache. *)
Lemma Cache_find_precache href hrefs :
  Forall (fun href => addable net href = true) hrefs ->
  NoDup (map stripFragment hrefs) ->
  href ∈ hrefs ->
  Cache_find (GET href) (precache net hrefs) = net (GET href).
Proof.
  induction 1 as [|href' hrefs Hhref' Hrest IH]; intros Hnodup Hin;
    [by apply elem_of_nil in Hin|].
  simpl in Hnodup. apply NoDup_cons in Hnodup as [Hnotin Hnodup].
  destruct (addable_inv _ _ Hhref') as (_ & r & Hnet & Hacc).
  destruct (addAccepts_inv _ Hacc) as (_ & _ & Hstar).
  simpl. rewrite Hnet. simpl. rewrite (matchesCached_GET _ _ _ Hstar).
  apply elem_of_cons in Hin as [-> | Hin].
  - by rewrite String.eqb_refl.
  - destruct (String.eqb_spec (stripFragment href) (stripFragment href')) as [Heq|_].
    + exfalso. apply Hnotin. rewrite <- Heq. by apply (list_elem_of_fmap_2 stripFragment).
    + by apply IH.
Qed.

End Precache.

Lemma existsb_requests (P : Request.t -> bool) (entries : Cache) :
  existsb (fun e => P e.1) entries = existsb P (map fst entries).
Proof. induction entries as [|e entries IH]; simpl; [done|]. by rewrite IH. Qed.

Lemma storage_alter_get (f : Cache -> Cache) name cs :
  storage_get name (storage_alter f name cs) = f <$> storage_get name cs.
Proof. rewrite storage_get_alter. by rewrite String.eqb_refl. Qed.

Lemma storage_get_opened name cs :
  storage_get name (storage_open name cs) = Some (default [] (storage_get name cs)).
Proof.
  rewrite storage_get_open, String.eqb_refl. by destruct (storage_get name cs).
Qed.

Section AddAll.

Variable origin : string.
Variable net : Request.t -> option Response.t.

(** [cache.addAll] when every response is accepted and the URLs are
    distinct: all the requests are sent, then the items they match are
    replaced by the new pairs. *)
Lemma cache_addAll_accepted cache urls w :
  Forall (fun href => addable net href = true) (map (resolveURL origin) urls) ->
  NoDup (map stripFragment (map (resolveURL origin) urls)) ->
  cache_addAll origin net cache urls w =
  (Fulfilled tt,
   mkWorld
     (storage_alter
        (fun _ =>
           List.filter
             (fun item =>
                negb (existsb (fun href => matchesCached (GET href) item)
                              (map (resolveURL origin) urls)))
             (default [] (storage_get cache (caches w)))
           ++ precache net (map (resolveURL origin) urls))
        cache (caches w))
     (trace w
      ++ map (fun href => NetFetch (GET href)) (map (resolveURL origin) urls)
      ++ map (fun e => CachePut cache (Request.url e.1) e.2)
             (precache net (map (resolveURL origin) urls)))).
Proof.
  intros Haddable Hnodup. unfold cache_addAll, andThen.
  rewrite <- (map_map (resolveURL origin) GET).
  set (hrefs := map (resolveURL origin) urls) in *.
  rewrite startFetches_run, (accepted_all _ _ Haddable).
  2:{ eapply Forall_impl; [exact Haddable|]. intros href Hhref.
      by destruct (addable_inv _ _ Hhref). }
  unfold cache_putAll. cbn [caches trace].
  pose proof (batchPut_spec (precache net hrefs) []
                (default [] (storage_get cache (caches w)))) as Hbatch.
  rewrite app_nil_r in Hbatch. rewrite Hbatch.
  change (batchDistinct (precache net hrefs) [])
    with (batchDistinct (precache net hrefs) (precache net [])).
  rewrite (precache_distinct net hrefs []) by (done || by constructor).
  assert (forall item : Request.t * Response.t,
            existsb (fun e => matchesCached e.1 item) (precache net hrefs) =
            existsb (fun href => matchesCached (GET href) item) hrefs) as Hsame.
  { intros item. rewrite (existsb_requests (fun q => matchesCached q item)).
    rewrite precache_requests by done. clear.
    induction hrefs as [|href hrefs' IH]; simpl; [done|]. by rewrite IH. }
  rewrite (List.filter_ext
             (fun item => negb (existsb (fun e => matchesCached e.1 item)
                                        (precache net hrefs)))
             (fun item => negb (existsb (fun href => matchesCached (GET href) item)
                                        hrefs)))
    by (intros item; by rewrite Hsame).
  cbn [app]. by rewrite <- app_assoc.
Qed.

(** [cache.addAll] when a fetch fails or a response is refused: all the
    requests are sent, nothing is stored, and the call rejects. *)
Lemma cache_addAll_refused cache urls w :
  Forall (fun href => isHTTP href = true) (map (resolveURL origin) urls) ->
  Exists (fun href => addable net href = false) (map (resolveURL origin) urls) ->
  cache_addAll origin net cache urls w =
  (Rejected (TypeError "Request failed"),
   mkWorld (caches w)
           (trace w
            ++ map (fun href => NetFetch (GET href)) (map (resolveURL origin) urls))).
Proof.
  intros Hhttp Hex. unfold cache_addAll, andThen.
  rewrite <- (map_map (resolveURL origin) GET).
  rewrite startFetches_run by done. by rewrite (accepted_none _ _ Hhttp Hex).
Qed.

(** The install listener over a manifest that is accepted whole. *)
Lemma install_accepted w :
  Forall (fun href => addable net href = true) (manifestURLs origin) ->
  NoDup (map stripFragment (manifestURLs origin)) ->
  install origin net w =
  (Fulfilled tt,
   mkWorld
     (storage_alter
        (fun _ =>
           List.filter (fun item => negb (inManifest origin item))
                       (default [] (storage_get STATIC_CACHE (caches w)))
           ++ precache net (manifestURLs origin))
        STATIC_CACHE (storage_open STATIC_CACHE (caches w)))
     (trace w
      ++ map (fun href => NetFetch (GET href)) (manifestURLs origin)
      ++ map (fun e => CachePut STATIC_CACHE (Request.url e.1) e.2)
             (precache net (manifestURLs origin))
      ++ [SkipWaiting])).
Proof.
  intros Haddable Hnodup.
  unfold install, tryCatch, andThen, caches_open.
  unfold manifestURLs in *. rewrite cache_addAll_accepted by done.
  unfold skipWaiting, emit, set_caches. cbn [caches trace].
  rewrite storage_get_opened. cbn [default]. by rewrite <- !app_assoc.
Qed.

(** The install listener over a manifest of which some URL is not
    accepted. *)
Lemma install_refused w :
  isHTTP origin = true ->
  Exists (fun href => addable net href = false) (manifestURLs origin) ->
  install origin net w =
  (Fulfilled tt,
   mkWorld (storage_open STATIC_CACHE (caches w))
           (trace w
            ++ map (fun href => NetFetch (GET href)) (manifestURLs origin)
            ++ [ConsoleError "Service Worker install failed:"])).
Proof.
  intros Hhttp Hex.
  unfold install, tryCatch, andThen, caches_open.
  unfold manifestURLs in *.
  rewrite cache_addAll_refused by (done || by apply manifest_isHTTP).
  unfold console_error, emit, set_caches. cbn [caches trace].
  by rewrite <- !app_assoc.
Qed.

End AddAll.

Lemma Cache_find_outside href hrefs (c : Cache) :
  href ∈ hrefs ->
  Cache_find (GET href)
    (List.filter
       (fun item => negb (existsb (fun h => matchesCached (GET h) item) hrefs)) c)
  = None.
Proof.
  intros Hin. induction c as [|item c IH]; simpl; [done|].
  destruct (existsb (fun h => matchesCached (GET h) item) hrefs) eqn:Hex; simpl;
    [done|].
  destruct (matchesCached (GET href) item) eqn:Hmatch; [|done].
  assert (existsb (fun h => matchesCached (GET h) item) hrefs = true) as Htrue.
  { apply existsb_exists. exists href. split; [|done]. by apply list_elem_of_In. }
  congruence.
Qed.

Lemma precache_length net hrefs :
  Forall (fun href => addable net href = true) hrefs ->
  length (precache net hrefs) = length hrefs.
Proof.
  intros Haddable.
  by rewrite <- (length_map fst), (precache_requests _ _ Haddable), length_map.
Qed.

(** C3, as the code has it. After an install in which every manifest URL
    was fetched with a response that [cache.addAll] accepts (ok, not a
    partial response, not varying on everything), the URLs being distinct,
    the static generation holds the items it held before that no manifest
    request matches, followed by one item per manifest URL with the
    response the network gave, which a lookup of that URL finds; a static
    generation that the install created holds exactly the manifest, which
    for the concrete manifest (three pages of the site and three CDN URLs)
    is 6 entries. *)
Theorem install_precaches_manifest origin net w :
  Forall (fun href => addable net href = true) (manifestURLs origin) ->
  NoDup (map stripFragment (manifestURLs origin)) ->
  exists w' static,
    install origin net w = (Fulfilled tt, w') /\
    In SkipWaiting (trace w') /\
    storage_get STATIC_CACHE (caches w') = Some static /\
    static =
      List.filter (fun item => negb (inManifest origin item))
                  (default [] (storage_get STATIC_CACHE (caches w)))
      ++ precache net (manifestURLs origin) /\
    map fst (precache net (manifestURLs origin)) = map GET (manifestURLs origin) /\
    (forall href, href ∈ manifestURLs origin ->
       Cache_match (GET href) static = net (GET href) /\
       entry STATIC_CACHE href w' = net (GET href)) /\
    length (manifestURLs origin) = 6 /\
    (storage_get STATIC_CACHE (caches w) = None ->
     map (fun item => Request.url item.1) static = manifestURLs origin /\
     length static = 6).
Proof.
  intros Haddable Hnodup.
  set (static := List.filter (fun item => negb (inManifest origin item))
                   (default [] (storage_get STATIC_CACHE (caches w)))
                 ++ precache net (manifestURLs origin)).
  assert (storage_get STATIC_CACHE
            (storage_alter (fun _ => static) STATIC_CACHE
                           (storage_open STATIC_CACHE (caches w))) = Some static)
    as Hget by (by rewrite storage_alter_get, storage_get_opened).
  assert (forall href, href ∈ manifestURLs origin ->
            Cache_match (GET href) static = net (GET href)) as Hfind.
  { intros href Hin. unfold Cache_match. cbn [GET Request.method]. simpl String.eqb.
    cbv iota. unfold static. rewrite Cache_find_app.
    unfold inManifest. rewrite Cache_find_outside by done.
    by apply Cache_find_precache. }
  eexists. exists static.
  split; [by apply install_accepted|]. cbn [trace caches].
  split; [rewrite !in_app_iff; do 3 right; by left|].
  split; [exact Hget|]. split; [done|].
  split; [by apply precache_requests|].
  split.
  { intros href Hin. split; [by apply Hfind|].
    unfold entry, entryFor. cbn [caches]. fold static. rewrite Hget.
    by apply Hfind. }
  split; [done|].
  intros Hfresh. unfold static. rewrite Hfresh. cbn [default List.filter app].
  split.
  - rewrite <- (map_map fst Request.url), (precache_requests _ _ Haddable).
    rewrite map_map. apply map_id.
  - by rewrite precache_length.
Qed.

Lemma install_precaches_manifest_witness :
  exists static,
    storage_get STATIC_CACHE (caches installed) = Some static /\
    Cache_match (GET "https://propgrid.com/script.js") static =
      Some (page "v1 https://propgrid.com/script.js") /\
    map (fun item => Request.url item.1) static = manifestURLs site_origin /\
    length static = 6.
Proof.
  destruct (install_precaches_manifest site_origin (online "v1") fresh)
    as (w' & static & Hrun & _ & Hget & _ & _ & Hentries & _ & Hfresh).
  { repeat (constructor; [reflexivity|]). constructor. }
  { apply (bool_decide_unpack _). vm_compute. exact I. }
  destruct Hfresh as [Hurls Hsize]; [reflexivity|].
  exists static. unfold installed. rewrite Hrun.
  split; [exact Hget|]. split; [|split; [exact Hurls|exact Hsize]].
  apply (Hentries "https://propgrid.com/script.js").
  vm_compute. do 2 right. left.
Defined.

(** C3, as stated, fails. The manifest has six URLs, and the static
    generation that a successful install creates holds six entries, not
    five; and a static generation that held a stylesheet before a
    successful install still holds it afterwards, next to the manifest. *)
Lemma install_static_generation_has_six_entries :
  (fst (install site_origin (online "v1") fresh) = Fulfilled tt /\
   In SkipWaiting (trace installed) /\
   exists static,
     storage_get STATIC_CACHE (caches installed) = Some static /\
     map (fun item => Request.url item.1) static =
       ["https://propgrid.com/";
        "https://propgrid.com/index.html";
        "https://propgrid.com/script.js";
        "https://cdn.tailwindcss.com/";
        "https://fonts.googleapis.com/css2?family=Inter:wght@400;500;600;700&display=swap";
        "https://cdnjs.cloudflare.com/ajax/libs/font-awesome/6.4.0/css/all.min.css"] /\
     length static = 6 /\ length static <> 5) /\
  (fst (install site_origin (online "v1") warm) = Fulfilled tt /\
   In SkipWaiting (trace (snd (install site_origin (online "v1") warm))) /\
   ~ In (Request.url robotoFont) (manifestURLs site_origin) /\
   entryFor STATIC_CACHE robotoFont
            (snd (install site_origin (online "v1") warm)) = Some (page "v0") /\
   (length <$> storage_get STATIC_CACHE
                 (caches (snd (install site_origin (online "v1") warm)))) = Some 7).
Proof.
  split.
  - split; [by vm_compute|]. split; [vm_compute; tauto|].
    eexists. split; [by vm_compute|]. split; [by vm_compute|].
    split; [by vm_compute|]. vm_compute. discriminate.
  - split; [by vm_compute|]. split; [vm_compute; tauto|].
    split; [|split; by vm_compute].
    vm_compute. intros H. repeat destruct H as [H|H]; try discriminate H. exact H.
Qed.

(** C2, as the code has it. When some URL of the precache manifest is not
    fetched with a response that [cache.addAll] accepts, the install
    listener catches the error and only logs it: the promise it gave to
    [waitUntil] fulfils, so that the platform installs the worker; every
    manifest URL was requested once, nothing is written to the static
    generation, [skipWaiting] is not called, and no fetch is repeated. *)
Theorem install_failure_is_logged origin net w :
  isHTTP origin = true ->
  Exists (fun href => addable net href = false) (manifestURLs origin) ->
  exists w',
    install origin net w = (Fulfilled tt, w') /\
    installVerdict (fst (install origin net w)) = Installed /\
    caches w' = storage_open STATIC_CACHE (caches w) /\
    storage_get STATIC_CACHE (caches w') =
      Some (default [] (storage_get STATIC_CACHE (caches w))) /\
    trace w' =
      trace w
      ++ map (fun href => NetFetch (GET href)) (manifestURLs origin)
      ++ [ConsoleError "Service Worker install failed:"] /\
    fetchCount (trace w') = fetchCount (trace w) + 6 /\
    ~ In SkipWaiting
         (map (fun href => NetFetch (GET href)) (manifestURLs origin)
          ++ [ConsoleError "Service Worker install failed:"]).
Proof.
  intros Hhttp Hfailed.
  pose proof (install_refused origin net w Hhttp Hfailed) as Hrun.
  eexists. split; [exact Hrun|]. rewrite Hrun. cbn [fst caches trace].
  split; [done|]. split; [done|]. split; [by rewrite storage_get_opened|].
  split; [done|]. split.
  - rewrite fetchCount_app. f_equal.
  - intros Hin. apply in_app_or in Hin as [Hin|Hin].
    + apply in_map_iff in Hin as (href & Heq & _). discriminate Heq.
    + destruct Hin as [Heq|[]]. discriminate Heq.
Qed.

Lemma install_failure_is_logged_witness :
  fst (install site_origin offline installed) = Fulfilled tt /\
  installVerdict (fst (install site_origin offline installed)) = Installed /\
  caches (snd (install site_origin offline installed)) = caches installed /\
  fst (install site_origin partially fresh) = Fulfilled tt /\
  caches (snd (install site_origin partially fresh)) = [(STATIC_CACHE, [])].
Proof.
  destruct (install_failure_is_logged site_origin offline installed)
    as (w' & Hrun & Hverdict & Hcaches & _).
  { reflexivity. }
  { apply Exists_cons_hd. reflexivity. }
  destruct (install_failure_is_logged site_origin partially fresh)
    as (w'' & Hrun' & _ & Hcaches' & _).
  { reflexivity. }
  { apply Exists_cons_hd. reflexivity. }
  rewrite Hrun, Hrun'. cbn [fst snd]. split; [reflexivity|].
  split; [rewrite Hrun in Hverdict; exact Hverdict|].
  split; [rewrite Hcaches; reflexivity|].
  split; [reflexivity|]. rewrite Hcaches'. reflexivity.
Defined.

(** C2, as stated, fails. Without network no manifest URL can be fetched;
    all six are requested, and yet the promise of the install listener
    fulfils, and the platform installs the worker over an empty static
    generation. *)
Lemma install_survives_failed_precache :
  addable offline (resolveURL site_origin "/") = false /\
  install site_origin offline fresh =
    (Fulfilled tt,
     mkWorld [(STATIC_CACHE, [])]
             [NetFetch (GET "https://propgrid.com/");
              NetFetch (GET "https://propgrid.com/index.html");
              NetFetch (GET "https://propgrid.com/script.js");
              NetFetch (GET "https://cdn.tailwindcss.com/");
              NetFetch (GET "https://fonts.googleapis.com/css2?family=Inter:wght@400;500;600;700&display=swap");
              NetFetch (GET "https://cdnjs.cloudflare.com/ajax/libs/font-awesome/6.4.0/css/all.min.css");
              ConsoleError "Service Worker install failed:"]) /\
  installVerdict (fst (install site_origin offline fresh)) = Installed /\
  installVerdict (fst (install site_origin offline fresh)) <> Redundant.
Proof.
  split; [reflexivity|]. split; [reflexivity|]. split; [reflexivity|].
  discriminate.
Qed.

(** ** Background sync *)

Lemma storage_open_existing name c cs :
  storage_get name cs = Some c -> storage_open name cs = cs.
Proof. intros H. unfold storage_open. by rewrite H. Qed.

Lemma entry_storage_get name href w r :
  entry name href w = Some r ->
  exists c, storage_get name (caches w) = Some c /\ Cache_match (GET href) c = Some r.
Proof.
  unfold entry, entryFor. destruct (storage_get name (caches w)) as [c|]; [|done].
  simpl. by exists c.
Qed.

Section BackgroundSync.

Variable origin : string.
Variable net : Request.t -> option Response.t.
Variable parse : string -> option JSValue.
Variable stringify : JSValue -> string.

Variables (w : World) (stored : Response.t) (formData : JSValue).
Hypothesis Hstored : entry DYNAMIC_CACHE (origin +:+ "/form-data") w = Some stored.
Hypothesis Hparse : parse (Response.body stored) = Some formData.

Lemma getStoredFormData_pending :
  getStoredFormData origin parse w = (Fulfilled formData, w).
Proof.
  destruct (entry_storage_get _ _ _ _ Hstored) as (c & Hc & Hentry).
  unfold getStoredFormData, tryCatch, andThen, caches_open, cache_match.
  cbn [caches set_caches]. rewrite (storage_open_existing _ _ _ Hc), Hc.
  change (resolveURL origin "/form-data") with (origin +:+ "/form-data").
  cbn [mbind option_bind]. rewrite Hentry. unfold Response_json. rewrite Hparse.
  unfold resolve. by destruct w.
Qed.

Lemma clearStoredFormData_pending w0 :
  caches w0 = caches w ->
  clearStoredFormData origin w0 =
  (Fulfilled tt,
   mkWorld (storage_alter (Cache_delete (GET (origin +:+ "/form-data")))
                          DYNAMIC_CACHE (caches w))
           (trace w0 ++ [CacheDelete DYNAMIC_CACHE (origin +:+ "/form-data")])).
Proof.
  intros Hcaches.
  destruct (entry_storage_get _ _ _ _ Hstored) as (c & Hc & Hentry).
  unfold clearStoredFormData, tryCatch, andThen, caches_open, cache_delete.
  cbn [caches set_caches]. rewrite Hcaches, (storage_open_existing _ _ _ Hc), Hc.
  change (resolveURL origin "/form-data") with (origin +:+ "/form-data").
  cbn [mbind option_bind]. by rewrite Hentry.
Qed.

End BackgroundSync.

(** C7. On a sync signal with the tag [background-sync], when a pending
    form submission is stored in the dynamic generation, the worker POSTs it
    once, as JSON, to [/api/signup], and deletes the stored entry only when
    the response is ok; on a response that is not ok, or when the fetch
    fails, the cache storage, and with it the stored entry, is unchanged. *)
Theorem background_sync_deletes_on_ok_only
    origin net parse stringify w stored formData :
  entry DYNAMIC_CACHE (origin +:+ "/form-data") w = Some stored ->
  parse (Response.body stored) = Some formData ->
  truthy formData = true ->
  let post := Request.mk "POST" (origin +:+ "/api/signup")
                         [("Content-Type", "application/json")]
                         (stringify formData) in
  exists w' rest,
    onsync origin net parse stringify "background-sync" w = (Fulfilled tt, w') /\
    trace w' = trace w ++ NetFetch post :: rest /\
    fetchCount rest = 0 /\
    match net post with
    | Some response =>
        if Response.ok response
        then caches w' =
               storage_alter (Cache_delete (GET (origin +:+ "/form-data")))
                             DYNAMIC_CACHE (caches w) /\
             entry DYNAMIC_CACHE (origin +:+ "/form-data") w' = None
        else caches w' = caches w /\
             entry DYNAMIC_CACHE (origin +:+ "/form-data") w' = Some stored
    | None =>
        caches w' = caches w /\
        entry DYNAMIC_CACHE (origin +:+ "/form-data") w' = Some stored
    end.
Proof.
  intros Hstored Hparse Htruthy post.
  change (onsync origin net parse stringify "background-sync" w)
    with (doBackgroundSync origin net parse stringify w).
  unfold doBackgroundSync, tryCatch, andThen.
  rewrite (getStoredFormData_pending _ _ _ _ _ Hstored Hparse), Htruthy.
  change (signupRequest origin stringify formData) with post.
  unfold fetch. destruct (net post) as [response|].
  - destruct (Response.ok response).
    + rewrite (clearStoredFormData_pending origin w stored Hstored) by done.
      eexists. exists [CacheDelete DYNAMIC_CACHE (origin +:+ "/form-data")].
      split; [reflexivity|]. cbn [trace caches emit].
      split; [by rewrite <- app_assoc|]. split; [done|]. split; [done|].
      unfold entry, entryFor; cbn [caches]. rewrite storage_alter_get.
      destruct (storage_get DYNAMIC_CACHE (caches w)); [|done].
      cbn [fmap option_fmap option_map mbind option_bind].
      apply Cache_match_delete.
    + eexists. exists []. split; [reflexivity|]. by cbn.
  - eexists. exists [ConsoleError "Background sync failed:"].
    split; [reflexivity|]. cbn [trace caches emit console_error snd].
    split; [by rewrite <- app_assoc|]. by split.
Qed.

Lemma background_sync_deletes_on_ok_only_witness :
  entry DYNAMIC_CACHE "https://propgrid.com/form-data"
        (snd (onsync site_origin (online "v1") parseJSON stringifyJSON
                     "background-sync" pending)) = None /\
  entry DYNAMIC_CACHE "https://propgrid.com/form-data"
        (snd (onsync site_origin failing parseJSON stringifyJSON
                     "background-sync" pending)) = Some storedForm /\
  entry DYNAMIC_CACHE "https://propgrid.com/form-data"
        (snd (onsync site_origin offline parseJSON stringifyJSON
                     "background-sync" pending)) = Some storedForm.
Proof.
  split; [|split].
  - destruct (background_sync_deletes_on_ok_only
                site_origin (online "v1") parseJSON stringifyJSON pending
                storedForm (JObject []))
      as (w' & rest & Hrun & _ & _ & Hcaches);
      [reflexivity|reflexivity|reflexivity|].
    rewrite Hrun. apply Hcaches.
  - destruct (background_sync_deletes_on_ok_only
                site_origin failing parseJSON stringifyJSON pending
                storedForm (JObject []))
      as (w' & rest & Hrun & _ & _ & Hcaches);
      [reflexivity|reflexivity|reflexivity|].
    rewrite Hrun. apply Hcaches.
  - destruct (background_sync_deletes_on_ok_only
                site_origin offline parseJSON stringifyJSON pending
                storedForm (JObject []))
      as (w' & rest & Hrun & _ & _ & Hcaches);
      [reflexivity|reflexivity|reflexivity|].
    rewrite Hrun. apply Hcaches.
Defined.

(** * Further properties *)

(** ** Routing of the fetch listener *)

Lemma onfetch_external origin net request :
  Request.method request = "GET" ->
  URL_origin (Request.url request) <> origin ->
  includes (URL_origin (Request.url request)) "cdn.tailwindcss.com"
  || includes (URL_origin (Request.url request)) "fonts.googleapis.com"
  || includes (URL_origin (Request.url request)) "cdnjs.cloudflare.com" = false ->
  onfetch origin net request = Some (handleExternalRequest net request).
Proof.
  intros Hget Horigin Hcdn. unfold onfetch. rewrite Hget, Hcdn. simpl.
  by destruct (String.eqb_spec (URL_origin (Request.url request)) origin).
Qed.


(** A CDN is recognized by its host name occurring anywhere in the origin
    of the request: a cross-origin GET request whose origin contains one of
    the three names is handled cache first. *)
Theorem CDN_recognized_by_substring origin net request pre post host :
  Request.method request = "GET" ->
  URL_origin (Request.url request) <> origin ->
  host ∈ ["cdn.tailwindcss.com"; "fonts.googleapis.com"; "cdnjs.cloudflare.com"] ->
  URL_origin (Request.url request) = pre +:+ host +:+ post ->
  onfetch origin net request = Some (handleCDNRequest net request).
Proof.
  intros Hget Horigin Hhost Hsub. apply onfetch_CDN; [done|done|].
  assert (includes (URL_origin (Request.url request)) host = true) as Hinc.
  { apply includes_spec. by exists pre, post. }
  apply elem_of_cons in Hhost as [-> | Hhost]; [by rewrite Hinc|].
  apply elem_of_cons in Hhost as [-> | Hhost]; [by rewrite Hinc, orb_true_r|].
  apply elem_of_cons in Hhost as [-> | Hhost]; [by rewrite Hinc, !orb_true_r|].
  by apply elem_of_nil in Hhost.
Qed.

Lemma CDN_recognized_by_substring_witness :
  URL_origin "https://cdn.tailwindcss.com.example.org/x.js" =
    "https://cdn.tailwindcss.com.example.org" /\
  onfetch site_origin offline (GET "https://cdn.tailwindcss.com.example.org/x.js") =
    Some (handleCDNRequest offline (GET "https://cdn.tailwindcss.com.example.org/x.js")).
Proof.
  split; [reflexivity|].
  apply (CDN_recognized_by_substring site_origin offline
           (GET "https://cdn.tailwindcss.com.example.org/x.js")
           "https://" ".example.org" "cdn.tailwindcss.com").
  - reflexivity.
  - discriminate.
  - left.
  - reflexivity.
Defined.

(** ** External requests *)

Lemma external_run net request w :
  handleExternalRequest net request w =
  (Fulfilled
     (Some match net request with
           | Some r => r
           | None => Response.create_status "Offline" 503 "Service Unavailable"
           end),
   emit (NetFetch request) w).
Proof.
  unfold handleExternalRequest, tryCatch, andThen, fetch.
  by destruct (net request).
Qed.

(** A cross-origin GET request to an origin that is no recognized CDN is
    answered from the network only: the network response is passed on
    whatever its status, a failed fetch is answered with a 503 response with
    the body [Offline], one fetch is made, and the caches are neither read
    nor written. *)
Theorem external_requests_network_only origin net request w :
  Request.method request = "GET" ->
  URL_origin (Request.url request) <> origin ->
  includes (URL_origin (Request.url request)) "cdn.tailwindcss.com"
  || includes (URL_origin (Request.url request)) "fonts.googleapis.com"
  || includes (URL_origin (Request.url request)) "cdnjs.cloudflare.com" = false ->
  exists respond,
    onfetch origin net request = Some respond /\
    (forall r, net request = Some r -> fst (respond w) = Fulfilled (Some r)) /\
    (net request = None ->
     exists r,
       fst (respond w) = Fulfilled (Some r) /\
       Response.status r = 503 /\ Response.statusText r = "Service Unavailable" /\
       Response.body r = "Offline" /\ Response.ok r = false) /\
    snd (respond w) = emit (NetFetch request) w /\
    caches (snd (respond w)) = caches w /\
    fetchCount (trace (snd (respond w))) = S (fetchCount (trace w)).
Proof.
  intros Hget Horigin Hcdn. eexists. split; [by apply onfetch_external|].
  rewrite external_run. cbn [fst snd]. split; [|split; [|split; [done|split; [done|]]]].
  - by intros r ->.
  - intros ->. eexists. split; [reflexivity|]. done.
  - cbn [emit trace]. rewrite fetchCount_app. unfold fetchCount at 2. simpl. lia.
Qed.

Lemma external_requests_network_only_witness :
  exists respond r,
    onfetch site_origin offline (GET "https://api.example.org/deals") = Some respond /\
    fst (respond installed) = Fulfilled (Some r) /\
    Response.status r = 503 /\ Response.body r = "Offline" /\
    caches (snd (respond installed)) = caches installed.
Proof.
  destruct (external_requests_network_only
              site_origin offline (GET "https://api.example.org/deals") installed)
    as (respond & Hroute & _ & Hoff & _ & Hcaches & _);
    [reflexivity|discriminate|reflexivity|].
  destruct Hoff as (r & Hres & Hstatus & _ & Hbody & _); [reflexivity|].
  exists respond, r. split; [exact Hroute|]. split; [exact Hres|].
  split; [exact Hstatus|]. split; [exact Hbody|exact Hcaches].
Defined.

(** ** What the fetch handlers never do *)

(** The same-origin handler never rejects: whatever the network does, the
    promise given to [respondWith] fulfils, with a response or with
    [undefined]. *)
Theorem sameOrigin_never_rejects origin net request w :
  exists answer, fst (handleSameOriginRequest origin net request w) = Fulfilled answer.
Proof.
  destruct (net request) as [r|] eqn:Hnet.
  - destruct (Response.ok r) eqn:Hok.
    + destruct (putAccepts request r) eqn:Hacc.
      * rewrite (sameOrigin_online_ok _ _ _ _ _ Hnet Hok Hacc). by eexists.
      * rewrite (sameOrigin_online_refused _ _ _ _ _ Hnet Hok Hacc). by eexists.
    + rewrite (sameOrigin_online_not_ok _ _ _ _ _ Hnet Hok). by eexists.
  - rewrite (sameOrigin_offline _ _ _ _ Hnet). by eexists.
Qed.

(** The CDN handler rejects in one case only: nothing cached matches the
    request, the network fetch fails, and the URL does not contain
    [tailwindcss.com]. *)
Theorem CDN_rejects_iff net request w :
  (exists e, fst (handleCDNRequest net request w) = Rejected e) <->
  storage_match request (caches w) = None /\ net request = None /\
  includes (Request.url request) "tailwindcss.com" = false.
Proof.
  destruct (storage_match request (caches w)) as [c|] eqn:Hmatch.
  { rewrite (CDN_cached _ _ _ _ Hmatch). split; [by intros [e ?]|by intros [? _]]. }
  destruct (net request) as [r|] eqn:Hnet.
  - assert (fst (handleCDNRequest net request w) = Fulfilled (Some r)) as ->.
    { destruct (Response.ok r) eqn:Hok.
      - destruct (putAccepts request r) eqn:Hacc.
        + by rewrite (CDN_miss_ok _ _ _ _ Hmatch Hnet Hok Hacc).
        + by rewrite (CDN_miss_refused _ _ _ _ Hmatch Hnet Hok Hacc).
      - by rewrite (CDN_miss_not_ok _ _ _ _ Hmatch Hnet Hok). }
    split; [by intros [e ?]|by intros (_ & ? & _)].
  - rewrite (CDN_miss_offline _ _ _ Hmatch Hnet). cbn [fst].
    destruct (includes (Request.url request) "tailwindcss.com").
    + split; [by intros [e ?]|by intros (_ & _ & ?)].
    + split; [done|]. intros _. by eexists.
Qed.

(** Each handler writes to its own generation only: the same-origin
    handler leaves every cache but the dynamic one as it was, the CDN
    handler every cache but the static one. *)
Theorem fetch_handlers_write_own_generation origin net request w name :
  (name <> DYNAMIC_CACHE ->
   storage_get name (caches (snd (handleSameOriginRequest origin net request w))) =
   storage_get name (caches w)) /\
  (name <> STATIC_CACHE ->
   storage_get name (caches (snd (handleCDNRequest net request w))) =
   storage_get name (caches w)).
Proof.
  assert (forall cache f, name <> cache ->
            storage_get name (storage_alter f cache (storage_open cache (caches w))) =
            storage_get name (caches w)) as Hput.
  { intros cache f Hne. rewrite storage_get_alter, storage_get_open.
    destruct (String.eqb_spec cache name); [congruence|].
    by destruct (storage_get name (caches w)). }
  assert (forall cache, name <> cache ->
            storage_get name (storage_open cache (caches w)) =
            storage_get name (caches w)) as Hopen.
  { intros cache Hne. rewrite storage_get_open.
    destruct (String.eqb_spec cache name); [congruence|].
    by destruct (storage_get name (caches w)). }
  split; intros Hname.
  - destruct (net request) as [r|] eqn:Hnet.
    + destruct (Response.ok r) eqn:Hok.
      * destruct (putAccepts request r) eqn:Hacc.
        -- rewrite (sameOrigin_online_ok _ _ _ _ _ Hnet Hok Hacc). by apply Hput.
        -- rewrite (sameOrigin_online_refused _ _ _ _ _ Hnet Hok Hacc). by apply Hopen.
      * by rewrite (sameOrigin_online_not_ok _ _ _ _ _ Hnet Hok).
    + by rewrite (sameOrigin_offline _ _ _ _ Hnet).
  - destruct (storage_match request (caches w)) as [c|] eqn:Hmatch.
    { by rewrite (CDN_cached _ _ _ _ Hmatch). }
    destruct (net request) as [r|] eqn:Hnet.
    + destruct (Response.ok r) eqn:Hok.
      * destruct (putAccepts request r) eqn:Hacc.
        -- rewrite (CDN_miss_ok _ _ _ _ Hmatch Hnet Hok Hacc). by apply Hput.
        -- rewrite (CDN_miss_refused _ _ _ _ Hmatch Hnet Hok Hacc). by apply Hopen.
      * by rewrite (CDN_miss_not_ok _ _ _ _ Hmatch Hnet Hok).
    + by rewrite (CDN_miss_offline _ _ _ Hmatch Hnet).
Qed.

Lemma fetch_handlers_write_own_generation_witness :
  storage_get STATIC_CACHE
    (caches (snd (handleSameOriginRequest site_origin (online "v2") indexPage installed)))
  = storage_get STATIC_CACHE (caches installed) /\
  storage_get DYNAMIC_CACHE
    (caches (snd (handleCDNRequest (online "v2") robotoFont revisited)))
  = storage_get DYNAMIC_CACHE (caches revisited).
Proof.
  destruct (fetch_handlers_write_own_generation
              site_origin (online "v2") indexPage installed STATIC_CACHE)
    as [Hsame _].
  destruct (fetch_handlers_write_own_generation
              site_origin (online "v2") robotoFont revisited DYNAMIC_CACHE)
    as [_ Hcdn].
  split; [apply Hsame|apply Hcdn]; intros [=].
Defined.

Lemma storage_match_before name q cs :
  storage_match q cs = None -> storage_match q (storage_before name cs) = None.
Proof.
  induction cs as [|[n c] cs IH]; simpl; [done|].
  destruct (Cache_match q c) eqn:Hc; [done|]. intros Hrest.
  destruct (String.eqb n name); [done|]. simpl. rewrite Hc. by apply IH.
Qed.

(** Round trip through the CDN handler: a response fetched on a cache miss
    and stored is the answer to the same request from then on, whatever the
    network would answer, and no further fetch is made. *)
Theorem CDN_round_trip net1 net2 request r w :
  storage_match request (caches w) = None ->
  net1 request = Some r -> Response.ok r = true -> putAccepts request r = true ->
  handleCDNRequest net2 request (snd (handleCDNRequest net1 request w)) =
  (Fulfilled (Some r), snd (handleCDNRequest net1 request w)).
Proof.
  intros Hmiss Hnet Hok Hacc.
  rewrite (CDN_miss_ok _ _ _ _ Hmiss Hnet Hok Hacc). cbn [snd].
  apply CDN_cached. cbn [caches].
  by rewrite storage_match_put, storage_match_before.
Qed.

Lemma CDN_round_trip_witness :
  fst (handleCDNRequest (online "v2") robotoFont
         (snd (handleCDNRequest (online "v1") robotoFont installed)))
  = Fulfilled (Some (page "v1 https://fonts.googleapis.com/css2?family=Roboto")).
Proof.
  rewrite (CDN_round_trip (online "v1") (online "v2") robotoFont
             (page "v1 https://fonts.googleapis.com/css2?family=Roboto") installed);
    reflexivity.
Defined.

(** ** Activation and installation, composed *)

Lemma activate_run w :
  activate w =
  (Fulfilled tt,
   mkWorld (filter (fun nc => isCurrent nc.1) (caches w))
           (trace w
            ++ map StorageDelete (filter (fun n => ~ isCurrent n) (map fst (caches w)))
            ++ [ClientsClaim])).
Proof.
  destruct w as [cs tr].
  destruct (delete_old_caches cs [] tr) as [results Hrun]; [constructor|].
  simpl in Hrun.
  unfold activate, andThen, caches_keys; simpl. rewrite Hrun.
  unfold clients_claim, emit; simpl. by rewrite <- app_assoc.
Qed.

Lemma filter_current_twice (cs : CacheStorage) :
  filter (fun nc => isCurrent nc.1) (filter (fun nc => isCurrent nc.1) cs) =
  filter (fun nc => isCurrent nc.1) cs.
Proof.
  induction cs as [|[n c] cs IH]; [done|].
  destruct (decide (isCurrent n)) as [Hn|Hn].
  - rewrite (filter_cons_True _ (n, c)) by done.
    rewrite !(filter_cons_True _ (n, c)) by done. by rewrite IH.
  - by rewrite !(filter_cons_False _ (n, c)) by done.
Qed.

Lemma no_old_among_current (cs : CacheStorage) :
  filter (fun n => ~ isCurrent n)
         (map fst (filter (fun nc => isCurrent nc.1) cs)) = [].
Proof.
  induction cs as [|[n c] cs IH]; [done|].
  destruct (decide (isCurrent n)) as [Hn|Hn].
  - rewrite (filter_cons_True _ (n, c)) by done. simpl.
    rewrite filter_cons_False by tauto. exact IH.
  - by rewrite (filter_cons_False _ (n, c)) by done.
Qed.

(** Activating again changes nothing: no cache is deleted, the storage
    stays as the first activation left it, and the clients are claimed
    again. *)
Theorem activate_twice w :
  activate (snd (activate w)) =
  (Fulfilled tt,
   mkWorld (caches (snd (activate w))) (trace (snd (activate w)) ++ [ClientsClaim])).
Proof.
  rewrite (activate_run w). cbn [snd]. rewrite activate_run. cbn [caches trace].
  by rewrite filter_current_twice, no_old_among_current.
Qed.

(** After an install that [cache.addAll] accepts, a manifest URL finds the
    response the network gave. *)
Lemma install_entry origin net w href :
  Forall (fun href => addable net href = true) (manifestURLs origin) ->
  NoDup (map stripFragment (manifestURLs origin)) ->
  href ∈ manifestURLs origin ->
  exists static,
    storage_get STATIC_CACHE (caches (snd (install origin net w))) = Some static /\
    Cache_match (GET href) static = net (GET href).
Proof.
  intros Haddable Hnodup Hin. rewrite install_accepted by done. cbn [snd caches].
  eexists. split; [by rewrite storage_alter_get, storage_get_opened|].
  unfold Cache_match. cbn [GET Request.method]. simpl String.eqb. cbv iota.
  rewrite Cache_find_app. unfold inManifest. rewrite Cache_find_outside by done.
  by apply Cache_find_precache.
Qed.

(** The precache survives activation: after install and activation the
    static generation answers every manifest URL with the response the
    network gave at install, and no generation of another version is
    left. *)
Theorem precache_survives_activation origin net w href :
  Forall (fun href => addable net href = true) (manifestURLs origin) ->
  NoDup (map stripFragment (manifestURLs origin)) ->
  href ∈ manifestURLs origin ->
  entry STATIC_CACHE href (snd (activate (snd (install origin net w)))) =
    net (GET href) /\
  forall name, ~ isCurrent name ->
    storage_get name (caches (snd (activate (snd (install origin net w))))) = None.
Proof.
  intros Haddable Hnodup Hin.
  destruct (install_entry origin net w href Haddable Hnodup Hin)
    as (static & Hget & Hfind).
  rewrite activate_run. cbn [snd]. split.
  - unfold entry, entryFor. cbn [caches]. rewrite storage_get_filter_current.
    rewrite decide_True by by left. by rewrite Hget.
  - intros name Hname. cbn [caches]. rewrite storage_get_filter_current.
    by rewrite decide_False.
Qed.

Lemma precache_survives_activation_witness :
  entry STATIC_CACHE "https://propgrid.com/index.html"
        (snd (activate (snd (install site_origin (online "v1") upgraded)))) =
    Some (page "v1 https://propgrid.com/index.html") /\
  storage_get "propgrid-static-v0.9.0"
    (caches (snd (activate (snd (install site_origin (online "v1") upgraded))))) = None.
Proof.
  destruct (precache_survives_activation
              site_origin (online "v1") upgraded "https://propgrid.com/index.html")
    as [Hentry Hgone].
  { repeat (constructor; [reflexivity|]). constructor. }
  { apply (bool_decide_unpack _). vm_compute. exact I. }
  { vm_compute. right. left. }
  split; [exact Hentry|]. apply Hgone. intros [H|H]; discriminate H.
Defined.

(** Over the whole storage, a request that the altered cache answers finds
    what an earlier generation holds for it, and else that answer. *)
Lemma storage_match_alter_hit name q (f : Cache -> Cache) r cs :
  (forall c, Cache_match q (f c) = Some r) ->
  storage_match q (storage_alter f name (storage_open name cs)) =
  Some (default r (storage_match q (storage_before name cs))).
Proof.
  intros Hhit. induction cs as [|[n c] cs IH].
  - simpl. rewrite String.eqb_refl. simpl. by rewrite Hhit.
  - destruct (String.eqb_spec n name) as [->|Hne].
    + rewrite storage_open_cons_eq. simpl. rewrite String.eqb_refl. simpl.
      by rewrite Hhit.
    + rewrite storage_open_cons_ne by done. simpl.
      destruct (String.eqb_spec n name); [done|]. simpl.
      by destruct (Cache_match q c).
Qed.

(** The precached pages are available offline: after an install that
    [cache.addAll] accepts, the same-origin handler answers a request for a
    manifest URL (a GET request without headers) that fails on the network
    with the response precached at install, provided no generation created
    before the static one holds a matching item. *)
Theorem precached_pages_available_offline origin net net' w href :
  Forall (fun href => addable net href = true) (manifestURLs origin) ->
  NoDup (map stripFragment (manifestURLs origin)) ->
  href ∈ manifestURLs origin ->
  storage_match (GET href) (storage_before STATIC_CACHE (caches w)) = None ->
  net' (GET href) = None ->
  exists r,
    net (GET href) = Some r /\ Response.ok r = true /\
    fst (handleSameOriginRequest origin net' (GET href) (snd (install origin net w))) =
      Fulfilled (Some r).
Proof.
  intros Haddable Hnodup Hin Hbefore Hoff.
  assert (addable net href = true) as Hhref.
  { rewrite Forall_forall in Haddable. by apply Haddable. }
  destruct (addable_inv _ _ Hhref) as (_ & r & Hnet & Hacc).
  destruct (addAccepts_inv _ Hacc) as (Hok & _ & _).
  exists r. split; [done|]. split; [done|].
  rewrite (sameOrigin_offline _ _ _ _ Hoff). cbn [fst].
  rewrite install_accepted by done. cbn [snd caches].
  rewrite (storage_match_alter_hit _ _ _ r).
  - by rewrite Hbefore.
  - intros _. unfold Cache_match. cbn [GET Request.method]. simpl String.eqb. cbv iota.
    rewrite Cache_find_app. unfold inManifest. rewrite Cache_find_outside by done.
    rewrite <- Hnet. by apply Cache_find_precache.
Qed.

Lemma precached_pages_available_offline_witness :
  fst (handleSameOriginRequest site_origin offline indexPage installed) =
    Fulfilled (Some (page "v1 https://propgrid.com/index.html")).
Proof.
  destruct (precached_pages_available_offline
              site_origin (online "v1") offline fresh "https://propgrid.com/index.html")
    as (r & Hnet & _ & Hres).
  { repeat (constructor; [reflexivity|]). constructor. }
  { apply (bool_decide_unpack _). vm_compute. exact I. }
  { vm_compute. right. left. }
  { reflexivity. }
  { reflexivity. }
  injection Hnet as <-. exact Hres.
Defined.

(** ** The message listener *)

(** A [SKIP_WAITING] message calls [skipWaiting] and does nothing else. *)
Theorem message_SKIP_WAITING origin net data w :
  hasType data "SKIP_WAITING" = true ->
  onmessage origin net data w = (Fulfilled tt, emit SkipWaiting w).
Proof.
  intros Hskip. unfold onmessage, andThen, unawaited, skipWaiting. rewrite Hskip.
  assert (hasType data "CACHE_URLS" = false) as ->; [|done].
  unfold hasType in *. destruct data as [m|]; [|done].
  destruct (Message.type m) as [ty|]; [|done].
  apply String.eqb_eq in Hskip as ->. reflexivity.
Qed.

Lemma message_SKIP_WAITING_witness :
  onmessage site_origin offline
            (Some (Message.mk (Some "SKIP_WAITING") None)) installed =
  (Fulfilled tt, emit SkipWaiting installed).
Proof. apply message_SKIP_WAITING. reflexivity. Defined.

(** A message without data, or of a type that is neither [SKIP_WAITING]
    nor [CACHE_URLS], is ignored. *)
Theorem message_of_other_type_ignored origin net data w :
  hasType data "SKIP_WAITING" = false ->
  hasType data "CACHE_URLS" = false ->
  onmessage origin net data w = (Fulfilled tt, w).
Proof.
  intros Hskip Hcache. unfold onmessage, andThen. by rewrite Hskip, Hcache.
Qed.

Lemma message_of_other_type_ignored_witness :
  onmessage site_origin (online "v1") None installed = (Fulfilled tt, installed) /\
  onmessage site_origin (online "v1")
            (Some (Message.mk (Some "PING") (Some ["/"]))) installed =
    (Fulfilled tt, installed).
Proof.
  split; apply message_of_other_type_ignored; reflexivity.
Defined.




(** ** Background sync, on every input *)

Section Sync.

Variable origin : string.
Variable net : Request.t -> option Response.t.
Variable parse : string -> option JSValue.
Variable stringify : JSValue -> string.

(** With nothing stored under [/form-data] there is no form data. *)
Lemma getStoredFormData_none w :
  entry DYNAMIC_CACHE (origin +:+ "/form-data") w = None ->
  getStoredFormData origin parse w =
  (Fulfilled JNull, mkWorld (storage_open DYNAMIC_CACHE (caches w)) (trace w)).
Proof.
  intros Hnone.
  unfold getStoredFormData, tryCatch, andThen, caches_open, cache_match.
  cbn [caches set_caches].
  change (resolveURL origin "/form-data") with (origin +:+ "/form-data").
  assert (storage_get DYNAMIC_CACHE (storage_open DYNAMIC_CACHE (caches w))
            ≫= Cache_match (GET (origin +:+ "/form-data")) = None) as ->; [|done].
  rewrite storage_get_opened. unfold entry, entryFor in Hnone.
  by destruct (storage_get DYNAMIC_CACHE (caches w)).
Qed.


(** The sync of a pending submission, case by case. *)
Lemma doBackgroundSync_pending w stored formData :
  entry DYNAMIC_CACHE (origin +:+ "/form-data") w = Some stored ->
  parse (Response.body stored) = Some formData ->
  truthy formData = true ->
  doBackgroundSync origin net parse stringify w =
  (Fulfilled tt,
   match net (signupRequest origin stringify formData) with
   | Some response =>
       if Response.ok response
       then mkWorld (storage_alter (Cache_delete (GET (origin +:+ "/form-data")))
                                   DYNAMIC_CACHE (caches w))
                    (trace w ++ [NetFetch (signupRequest origin stringify formData);
                                 CacheDelete DYNAMIC_CACHE (origin +:+ "/form-data")])
       else mkWorld (caches w)
                    (trace w ++ [NetFetch (signupRequest origin stringify formData)])
   | None =>
       mkWorld (caches w)
               (trace w ++ [NetFetch (signupRequest origin stringify formData);
                            ConsoleError "Background sync failed:"])
   end).
Proof.
  intros Hstored Hparse Htruthy.
  unfold doBackgroundSync, tryCatch, andThen.
  rewrite (getStoredFormData_pending _ _ _ _ _ Hstored Hparse), Htruthy.
  unfold fetch. destruct (net (signupRequest origin stringify formData)) as [response|].
  - destruct (Response.ok response); [|done].
    rewrite (clearStoredFormData_pending origin w stored Hstored) by done.
    cbn [trace emit]. by rewrite <- app_assoc.
  - unfold console_error, emit. cbn [trace caches]. by rewrite <- app_assoc.
Qed.

(** The sync without form data to send. *)
Lemma doBackgroundSync_nothing w w' formData :
  getStoredFormData origin parse w = (Fulfilled formData, w') ->
  truthy formData = false ->
  doBackgroundSync origin net parse stringify w = (Fulfilled tt, w').
Proof.
  intros Hget Hfalsy. unfold doBackgroundSync, tryCatch, andThen.
  by rewrite Hget, Hfalsy.
Qed.

End Sync.


(** A sync signal with another tag is ignored. *)
Theorem background_sync_ignores_other_tags origin net parse stringify tag w :
  tag <> "background-sync" ->
  onsync origin net parse stringify tag w = (Fulfilled tt, w).
Proof.
  intros Htag. unfold onsync.
  by destruct (String.eqb_spec tag "background-sync").
Qed.

Lemma background_sync_ignores_other_tags_witness :
  onsync site_origin (online "v1") parseJSON stringifyJSON "periodic-refresh" pending =
  (Fulfilled tt, pending).
Proof. apply background_sync_ignores_other_tags. discriminate. Defined.

(** Without a stored submission a sync sends nothing: the dynamic
    generation is created when it does not exist, and nothing else
    happens. *)
Theorem background_sync_sends_nothing_without_submission
    origin net parse stringify w :
  entry DYNAMIC_CACHE (origin +:+ "/form-data") w = None ->
  onsync origin net parse stringify "background-sync" w =
  (Fulfilled tt, mkWorld (storage_open DYNAMIC_CACHE (caches w)) (trace w)).
Proof.
  intros Hnone.
  change (onsync origin net parse stringify "background-sync" w)
    with (doBackgroundSync origin net parse stringify w).
  apply (doBackgroundSync_nothing _ _ _ _ _ _ JNull); [|done].
  by apply getStoredFormData_none.
Qed.

Lemma background_sync_sends_nothing_without_submission_witness :
  onsync site_origin (online "v1") parseJSON stringifyJSON "background-sync" installed =
  (Fulfilled tt,
   mkWorld (caches installed ++ [(DYNAMIC_CACHE, [])]) (trace installed)).
Proof.
  rewrite background_sync_sends_nothing_without_submission; reflexivity.
Defined.



Lemma storage_open_alter (f : Cache -> Cache) name c cs :
  storage_get name cs = Some c ->
  storage_open name (storage_alter f name cs) = storage_alter f name cs.
Proof.
  intros Hc. apply (storage_open_existing _ (f c)).
  by rewrite storage_alter_get, Hc.
Qed.

(** A submission that was sent with success is not sent again: the next
    sync finds nothing stored, sends nothing and changes nothing. *)
Theorem background_sync_no_resend_after_success
    origin net net' parse stringify w stored formData response :
  entry DYNAMIC_CACHE (origin +:+ "/form-data") w = Some stored ->
  parse (Response.body stored) = Some formData ->
  truthy formData = true ->
  net (signupRequest origin stringify formData) = Some response ->
  Response.ok response = true ->
  onsync origin net' parse stringify "background-sync"
         (snd (onsync origin net parse stringify "background-sync" w)) =
  (Fulfilled tt, snd (onsync origin net parse stringify "background-sync" w)).
Proof.
  intros Hstored Hparse Htruthy Hnet Hok.
  change (onsync origin net parse stringify "background-sync" w)
    with (doBackgroundSync origin net parse stringify w).
  rewrite (doBackgroundSync_pending _ _ _ _ _ _ _ Hstored Hparse Htruthy), Hnet, Hok.
  cbn [snd].
  destruct (entry_storage_get _ _ _ _ Hstored) as (c & Hc & _).
  change (onsync origin net' parse stringify "background-sync" ?w1)
    with (doBackgroundSync origin net' parse stringify w1).
  apply (doBackgroundSync_nothing _ _ _ _ _ _ JNull); [|done].
  rewrite getStoredFormData_none.
  - cbn [caches trace]. by rewrite (storage_open_alter _ _ c).
  - unfold entry, entryFor. cbn [caches]. rewrite storage_alter_get, Hc.
    cbn [fmap option_fmap option_map mbind option_bind]. apply Cache_match_delete.
Qed.

Lemma background_sync_no_resend_after_success_witness :
  fetchCount
    (trace (snd (onsync site_origin (online "v2") parseJSON stringifyJSON
                        "background-sync"
                        (snd (onsync site_origin (online "v1") parseJSON stringifyJSON
                                     "background-sync" pending))))) = 1.
Proof.
  rewrite (background_sync_no_resend_after_success
             site_origin (online "v1") (online "v2") parseJSON stringifyJSON pending
             storedForm (JObject [])
             (page "v1 https://propgrid.com/api/signup"));
    reflexivity.
Defined.

(** A submission whose sending failed is sent again on the next sync: after
    a sync that met a failed fetch or a response that is not ok, a sync that
    gets an ok response sends the same request and deletes the entry. *)
Theorem background_sync_retries_after_failure
    origin net net' parse stringify w stored formData response :
  entry DYNAMIC_CACHE (origin +:+ "/form-data") w = Some stored ->
  parse (Response.body stored) = Some formData ->
  truthy formData = true ->
  match net (signupRequest origin stringify formData) with
  | Some failed => Response.ok failed = false
  | None => True
  end ->
  net' (signupRequest origin stringify formData) = Some response ->
  Response.ok response = true ->
  exists w1 w2,
    onsync origin net parse stringify "background-sync" w = (Fulfilled tt, w1) /\
    onsync origin net' parse stringify "background-sync" w1 = (Fulfilled tt, w2) /\
    entry DYNAMIC_CACHE (origin +:+ "/form-data") w1 = Some stored /\
    entry DYNAMIC_CACHE (origin +:+ "/form-data") w2 = None /\
    In (NetFetch (signupRequest origin stringify formData)) (trace w1) /\
    fetchCount (trace w2) = fetchCount (trace w) + 2.
Proof.
  intros Hstored Hparse Htruthy Hfailed Hnet' Hok'.
  change (onsync origin ?n parse stringify "background-sync" ?w0)
    with (doBackgroundSync origin n parse stringify w0).
  pose proof (doBackgroundSync_pending origin net parse stringify w stored formData
                Hstored Hparse Htruthy) as Hrun1.
  set (post := signupRequest origin stringify formData) in *.
  assert (exists log,
            doBackgroundSync origin net parse stringify w =
              (Fulfilled tt, mkWorld (caches w) (trace w ++ NetFetch post :: log)) /\
            fetchCount log = 0) as (log & Hrun & Hlog).
  { rewrite Hrun1. destruct (net post) as [failed|].
    - rewrite Hfailed. by exists [].
    - by exists [ConsoleError "Background sync failed:"]. }
  pose proof (doBackgroundSync_pending origin net' parse stringify
                (mkWorld (caches w) (trace w ++ NetFetch post :: log)) stored formData
                Hstored Hparse Htruthy) as Hrun2.
  fold post in Hrun2. rewrite Hnet', Hok' in Hrun2. cbn [caches trace] in Hrun2.
  eexists. eexists. split; [exact Hrun|]. split; [exact Hrun2|].
  split; [exact Hstored|]. split; [|split].
  - destruct (entry_storage_get _ _ _ _ Hstored) as (c & Hc & _).
    unfold entry, entryFor. cbn [caches]. rewrite storage_alter_get, Hc.
    cbn [fmap option_fmap option_map mbind option_bind]. apply Cache_match_delete.
  - cbn [trace]. rewrite in_app_iff. right. by left.
  - cbn [trace]. rewrite !fetchCount_app.
    change (NetFetch post :: log) with ([NetFetch post] ++ log).
    rewrite fetchCount_app, Hlog. unfold fetchCount at 2 3. simpl. lia.
Qed.

Lemma background_sync_retries_after_failure_witness :
  exists w1 w2,
    onsync site_origin failing parseJSON stringifyJSON "background-sync" pending =
      (Fulfilled tt, w1) /\
    onsync site_origin (online "v1") parseJSON stringifyJSON "background-sync" w1 =
      (Fulfilled tt, w2) /\
    entry DYNAMIC_CACHE "https://propgrid.com/form-data" w1 = Some storedForm /\
    entry DYNAMIC_CACHE "https://propgrid.com/form-data" w2 = None /\
    fetchCount (trace w2) = 2.
Proof.
  destruct (background_sync_retries_after_failure
              site_origin failing (online "v1") parseJSON stringifyJSON pending
              storedForm (JObject []) (page "v1 https://propgrid.com/api/signup"))
    as (w1 & w2 & Hrun1 & Hrun2 & Hkept & Hgone & _ & Hcount);
    [reflexivity|reflexivity|reflexivity|reflexivity|reflexivity|reflexivity|].
  exists w1, w2. split; [exact Hrun1|]. split; [exact Hrun2|].
  split; [exact Hkept|]. split; [exact Hgone|exact Hcount].
Defined.
